(** * csv-stats: one-way / two-way ANOVA pipeline and report rendering

    A shallow embedding of
      - [build/lib/csv_stats/anova.py]      ([anova1way], [anova2way])
      - [src/csvstats/utils/save_stats.py]  ([dict_to_pdf], [convert_types],
        [get_plot_data], [dict_to_json], [save_handler])

    Python objects are a small inductive [value]; a pandas DataFrame is an
    ordered list of named columns; exceptions are an error monad; the file
    system and standard output are threaded explicitly.  Floats are modelled
    by their rational values (NaN and infinities are outside the model).
    Calls into statsmodels, patsy, matplotlib, reportlab, json, tempfile and
    the repository modules that are not part of the two files above are the
    fields of the interface [Libs]. *)

From Stdlib Require Import ZArith QArith Qround Qminmax Lqa Ascii String.
From stdpp Require Import base option list strings gmap pretty.

Close Scope Q_scope.
Open Scope Z_scope.

(** ** Exceptions and the two monads *)

Inductive exn :=
| KeyError (key : string)
| TypeError (msg : string)
| ValueError (msg : string)
| AttributeError (attr : string)
| UnboundLocalError (var : string)
| LibraryError (cls msg : string).

(** The Python class name an exception is an instance of. *)
Definition exn_class (e : exn) : string :=
  match e with
  | KeyError _ => "KeyError"
  | TypeError _ => "TypeError"
  | ValueError _ => "ValueError"
  | AttributeError _ => "AttributeError"
  | UnboundLocalError _ => "UnboundLocalError"
  | LibraryError cls _ => cls
  end.

Inductive result (A : Type) :=
| Ok (a : A)
| Raise (e : exn).
Arguments Ok {A} a.
Arguments Raise {A} e.

#[global] Instance result_ret : MRet result := fun A a => Ok a.
#[global] Instance result_bind : MBind result := fun A B f m =>
  match m with
  | Ok a => f a
  | Raise e => Raise e
  end.

Definition raises_class {A} (r : result A) (cls : string) : Prop :=
  match r with Ok _ => False | Raise e => exn_class e = cls end.

(** ** Python values *)

#[warnings="-register-all"]
Inductive value :=
| VNone
| VBool (b : bool)
| VInt (n : Z)
| VFloat (x : Q)
| VStr (s : string)
| VScalar (inner : value)          (* library scalar: has [.item()] *)
| VList (items : list value)
| VTuple (items : list value)
| VDict (entries : list (string * value)).

(** Dictionaries keep insertion order; [d[k] = v] overwrites in place. *)
Fixpoint dict_set {A} (d : list (string * A)) (k : string) (v : A)
  : list (string * A) :=
  match d with
  | [] => [(k, v)]
  | (k', v') :: d' =>
      if String.eqb k' k then (k, v) :: d' else (k', v') :: dict_set d' k v
  end.

Fixpoint dict_get {A} (d : list (string * A)) (k : string) : option A :=
  match d with
  | [] => None
  | (k', v) :: d' => if String.eqb k' k then Some v else dict_get d' k
  end.

Definition dict_keys {A} (d : list (string * A)) : list string := map fst d.
Definition dict_values {A} (d : list (string * A)) : list A := map snd d.

(** [obj[key]] for a string key. *)
Definition subscript (obj : value) (key : string) : result value :=
  match obj with
  | VDict d =>
      match dict_get d key with
      | Some v => Ok v
      | None => Raise (KeyError key)
      end
  | _ => Raise (TypeError "object is not subscriptable by a string key")
  end.

(** [bool(obj)]; a library scalar is as true as the number it holds. *)
Fixpoint truthy (obj : value) : bool :=
  match obj with
  | VNone => false
  | VBool b => b
  | VInt n => negb (n =? 0)
  | VFloat x => negb (Qeq_bool x 0)
  | VStr s => negb (String.eqb s "")
  | VScalar v => truthy v
  | VList l | VTuple l => negb (length l =? 0)%nat
  | VDict d => negb (length d =? 0)%nat
  end.

(** [convert_types] (save_stats.py, lines 120-128). *)
Fixpoint convert_types (obj : value) : value :=
  match obj with
  | VDict d => VDict (map (fun kv => (kv.1, convert_types kv.2)) d)
  | VList l | VTuple l => VList (map convert_types l)
  | VScalar v => v
  | _ => obj
  end.

(** ** Numbers: Python's [int] and [float], and built-in [round], [min], [max] *)

Inductive number :=
| NInt (n : Z)
| NFloat (x : Q).

Definition number_Q (a : number) : Q :=
  match a with
  | NInt n => inject_Z n
  | NFloat x => x
  end.

Definition value_of_number (a : number) : value :=
  match a with
  | NInt n => VInt n
  | NFloat x => VFloat x
  end.

Definition as_number (v : value) : result number :=
  match v with
  | VInt n | VScalar (VInt n) => Ok (NInt n)
  | VBool b => Ok (NInt (Z.b2z b))
  | VFloat x | VScalar (VFloat x) => Ok (NFloat x)
  | _ => Raise (TypeError "unsupported operand type(s)")
  end.

Definition num_sub (a b : number) : number :=
  match a, b with
  | NInt x, NInt y => NInt (x - y)
  | _, _ => NFloat (number_Q a - number_Q b)
  end.

Definition num_add (a b : number) : number :=
  match a, b with
  | NInt x, NInt y => NInt (x + y)
  | _, _ => NFloat (number_Q a + number_Q b)
  end.

Definition num_mul (a b : number) : number :=
  match a, b with
  | NInt x, NInt y => NInt (x * y)
  | _, _ => NFloat (number_Q a * number_Q b)
  end.

(** [a < b] *)
Definition num_ltb (a b : number) : bool :=
  negb (Qle_bool (number_Q b) (number_Q a)).

(** [min(l)] and [max(l)]: the first smallest (largest) item; an empty
    sequence is a [ValueError]. *)
Definition py_min (l : list number) : result number :=
  match l with
  | [] => Raise (ValueError "min() arg is an empty sequence")
  | x :: r => Ok (fold_left (fun best y => if num_ltb y best then y else best) r x)
  end.

Definition py_max (l : list number) : result number :=
  match l with
  | [] => Raise (ValueError "max() arg is an empty sequence")
  | x :: r => Ok (fold_left (fun best y => if num_ltb best y then y else best) r x)
  end.

(** Round to the nearest integer, ties to even. *)
Definition round_half_even (x : Q) : Z :=
  let f := Qfloor x in
  match Qcompare (x - inject_Z f) (1 # 2) with
  | Lt => f
  | Gt => f + 1
  | Eq => if Z.even f then f else f + 1
  end.

(** [round(x, ndigits)] on a float, [0 <= ndigits]. *)
Definition round_float (x : Q) (ndigits : Z) : Q :=
  (inject_Z (round_half_even (x * inject_Z (10 ^ ndigits)))
   / inject_Z (10 ^ ndigits))%Q.

(** [round(v, ndigits)] for [0 <= ndigits]: a float is rounded, an int is
    returned as it is, a library float scalar stays a library scalar. *)
Definition py_round (v : value) (ndigits : Z) : result value :=
  match v with
  | VFloat x => Ok (VFloat (round_float x ndigits))
  | VScalar (VFloat x) => Ok (VScalar (VFloat (round_float x ndigits)))
  | VInt n => Ok (VInt n)
  | VScalar (VInt n) => Ok (VScalar (VInt n))
  | VBool b => Ok (VInt (Z.b2z b))
  | _ => Raise (TypeError "type doesn't define __round__ method")
  end.


(** ** Tables (pandas DataFrame) *)

Inductive cell :=
| CStr (s : string)
| CInt (n : Z)
| CFloat (x : Q)
| CNaN.

Definition cell_eqb (a b : cell) : bool :=
  match a, b with
  | CStr s, CStr t => String.eqb s t
  | CInt n, CInt m => n =? m
  | CFloat x, CFloat y => Qeq_bool x y
  | CInt n, CFloat y | CFloat y, CInt n => Qeq_bool (inject_Z n) y
  | CNaN, CNaN => true
  | _, _ => false
  end.

Definition Series := list cell.

(** Columns in order, each with its name. *)
Definition DataFrame := list (string * Series).

(** [len(data)]: the number of rows. *)
Definition df_len (data : DataFrame) : Z :=
  match data with
  | [] => 0
  | (_, col) :: _ => Z.of_nat (length col)
  end.

(** Table invariant: every column has [len(data)] rows. *)
Definition rectangular (data : DataFrame) : bool :=
  forallb (fun c => Z.of_nat (length c.2) =? df_len data) data.

(** [data[name]] *)
Definition df_getitem (data : DataFrame) (name : string) : result Series :=
  match dict_get data name with
  | Some col => Ok col
  | None => Raise (KeyError name)
  end.

(** [data[name] = col]: replaces the column of that name, or appends one. *)
Definition df_setitem (data : DataFrame) (name : string) (col : Series)
  : DataFrame := dict_set data name col.

Fixpoint unique_from (seen : list cell) (s : Series) : Series :=
  match s with
  | [] => []
  | c :: r =>
      if existsb (cell_eqb c) seen then unique_from seen r
      else c :: unique_from (c :: seen) r
  end.

(** [s.unique()]: the distinct values in order of first appearance. *)
Definition unique (s : Series) : Series := unique_from [] s.

Inductive data_source :=
| FromPath (path : string)
| InMemory (data : DataFrame).

(** The grouping argument of [test_variance_homogeneity_assumption]: one
    column name (one-way) or a list of names (two-way). *)
Inductive group_spec :=
| OneColumn (name : string)
| Columns (names : list string).

(** The ANOVA table of [anova_lm]: rows by term, columns by statistic. *)
Definition anova_table := list (string * list (string * value)).

(** [anova_table.loc[row, col]] *)
Definition loc (t : anova_table) (row col : string) : result value :=
  match dict_get t row with
  | None => Raise (KeyError row)
  | Some r =>
      match dict_get r col with
      | None => Raise (KeyError col)
      | Some v => Ok v
      end
  end.

(** ** Files, the drawing canvas and the world *)

Record curve := {
  c_label : string;
  c_mean : value;
  c_std : value;
  c_legend_mean : value;     (* round(mean, 4) *)
  c_legend_std : value       (* round(std_dev, 4) *)
}.

Record figure := {
  fig_width : Z;
  fig_height : Z;
  fig_x_min : value;
  fig_x_max : value;
  fig_curves : list curve
}.

Inductive draw_op :=
| SetFont (name : string) (size : Q)
| DrawString (x y : Q) (text : string)
| DrawImage (img : figure) (x y w h : Q).

Definition page := list draw_op.

Inductive file :=
| EmptyFile
| PngFile (fig : figure)
| PdfFile (pages : list page)
| OtherFile (content : string).

Record world := {
  files : gmap string file;
  stdout : list string
}.

Definition io (A : Type) : Type := world -> result A * world.

#[global] Instance io_ret : MRet io := fun A a w => (Ok a, w).
#[global] Instance io_bind : MBind io := fun A B f m w =>
  match m w with
  | (Ok a, w') => f a w'
  | (Raise e, w') => (Raise e, w')
  end.

Definition lift {A} (r : result A) : io A := fun w => (r, w).

Definition write_file (path : string) (f : file) : io unit := fun w =>
  (Ok (), {| files := <[path := f]> (files w); stdout := stdout w |}).

(** [os.unlink(path)] *)
Definition os_unlink (path : string) : io unit := fun w =>
  match files w !! path with
  | Some _ => (Ok (), {| files := delete path (files w); stdout := stdout w |})
  | None => (Raise (LibraryError "FileNotFoundError" path), w)
  end.

Definition print (line : string) : io unit := fun w =>
  (Ok (), {| files := files w; stdout := stdout w ++ [line] |}).

(** ** Library calls

    Calls whose only modelled outcome is success or an exception. *)
Inductive lib_call :=
| NamedTemporaryFile (suffix : string)
| PltFigure (width height : Z)
| NpLinspace (lo hi : value) (num : Z)
| NormPdf (mean std_dev : value)
| PltPlot (label : string)
| PltSavefig (path : string)
| CanvasDrawImage (path : string)
| CanvasSave (path : string)
| OpenForWriting (path : string).

(** What the code calls and does not define: statsmodels / patsy
    ([ols_fit], [anova_lm]), the repository's own [utils.summary_stats],
    [utils.test_assumptions] and the reader behind [utils.load_data], the
    standard library's [json.dumps], [str] of a float and [tempfile], and
    the exceptions of the drawing and plotting calls. *)
Class Libs := {
  Model : Type;
  read_table : string -> result DataFrame;
  ols_fit : string -> DataFrame -> result Model;
  anova_lm : Model -> Z -> result anova_table;
  calculate_summary_statistics : DataFrame -> string -> string -> result value;
  test_normality_assumption : Model -> result value;
  test_variance_homogeneity_assumption :
    DataFrame -> group_spec -> string -> result value;
  json_dumps : value -> option Z -> result string;
  float_str : Q -> string;
  tmp_name : gmap string file -> string;
  lib_raises : lib_call -> option exn
}.

Definition call `{Libs} (c : lib_call) : io unit :=
  lift (match lib_raises c with
        | Some e => Raise e
        | None => Ok ()
        end).

(** ** Strings *)

(** [s.endswith(suffix)] *)
Definition endswith (s suffix : string) : bool :=
  let n := String.length s in
  let m := String.length suffix in
  (m <=? n)%nat && String.eqb (String.substring (n - m) m s) suffix.

Fixpoint split_lines_from (cur s : string) : list string :=
  match s with
  | EmptyString => [cur]
  | String c r =>
      if Ascii.eqb c "010"%char then cur :: split_lines_from "" r
      else split_lines_from (cur +:+ String c "") r
  end.

(** [s.split('\n')] *)
Definition split_lines (s : string) : list string := split_lines_from "" s.

(** [str(x)] of a table cell, as [astype(str)] applies it. *)
Definition cell_str `{Libs} (c : cell) : string :=
  match c with
  | CStr s => s
  | CInt n => pretty n
  | CFloat x => float_str x
  | CNaN => "nan"
  end.

(** ** reportlab canvas *)

Record canvas := {
  c_filename : string;
  c_pages : list page;      (* pages closed by showPage *)
  c_page : page             (* the page being drawn *)
}.

Definition Canvas (filename : string) : canvas :=
  {| c_filename := filename; c_pages := []; c_page := [] |}.

Definition draw (c : canvas) (op : draw_op) : canvas :=
  {| c_filename := c_filename c; c_pages := c_pages c;
     c_page := c_page c ++ [op] |}.

Definition showPage (c : canvas) : canvas :=
  {| c_filename := c_filename c; c_pages := c_pages c ++ [c_page c];
     c_page := [] |}.

(** The pages [c.save()] writes: a page in progress is closed first. *)
Definition saved_pages (c : canvas) : list page :=
  match c_page c with
  | [] => c_pages c
  | _ :: _ => c_pages c ++ [c_page c]
  end.

Definition inch : Q := 72.
Definition letter : Q * Q := (612, 792)%Q.

Section SaveStats.
Context `{L : Libs}.

(** *** dict_to_pdf (save_stats.py, lines 15-117) *)

Definition pdf_margin : Q := ((1 # 2) * inch)%Q.
Definition pdf_line_height : Q := ((15 # 100) * inch)%Q.

(** Lines 40-46: one line of text per step, a new page when the position
    falls below the bottom margin. *)
Fixpoint draw_lines (c : canvas) (y_position : Q) (lines : list string)
  : canvas * Q :=
  match lines with
  | [] => (c, y_position)
  | line :: rest =>
      let '(c, y_position) :=
        if negb (Qle_bool pdf_margin y_position)
        then (draw (showPage c) (SetFont "Courier" 9),
              (letter.2 - pdf_margin)%Q)
        else (c, y_position) in
      draw_lines (draw c (DrawString pdf_margin y_position line))
                 (y_position - pdf_line_height)%Q rest
  end.

Definition dict_values_of (v : value) : result (list value) :=
  match v with
  | VDict d => Ok (dict_values d)
  | _ => Raise (AttributeError "values")
  end.

Definition dict_items_of (v : value) : result (list (string * value)) :=
  match v with
  | VDict d => Ok d
  | _ => Raise (AttributeError "items")
  end.

(** [len(v)] *)
Definition py_len (v : value) : result Z :=
  match v with
  | VDict d => Ok (Z.of_nat (length d))
  | VList l | VTuple l => Ok (Z.of_nat (length l))
  | VStr s => Ok (Z.of_nat (String.length s))
  | _ => Raise (TypeError "object has no len()")
  end.

(** [plot_data.get(key, None)], [plot_data] being a dict. *)
Definition get_or_none (obj : value) (key : string) : result value :=
  match obj with
  | VDict d => Ok (default VNone (dict_get d key))
  | _ => Raise (AttributeError "get")
  end.

(** [a, b = v] *)
Definition unpack2 (v : value) : result (value * value) :=
  match v with
  | VList [a; b] | VTuple [a; b] => Ok (a, b)
  | VDict [(a, _); (b, _)] => Ok (VStr a, VStr b)
  | VList _ | VTuple _ | VDict _ =>
      Raise (ValueError "wrong number of values to unpack")
  | VStr (String a (String b EmptyString)) =>
      Ok (VStr (String a ""), VStr (String b ""))
  | VStr _ => Raise (ValueError "wrong number of values to unpack")
  | _ => Raise (TypeError "cannot unpack non-iterable object")
  end.

(** Lines 56-63: the x-axis range of the plot. *)
Definition plot_x_range (means std_devs x_range : value)
  : result (value * value) :=
  match x_range with
  | VNone =>
      all_means ← dict_values_of means;
      all_stds ← dict_values_of std_devs;
      lo_mean ← mapM as_number all_means ≫= py_min;
      hi_std ← mapM as_number all_stds ≫= py_max;
      let x_min := num_sub lo_mean (num_mul (NInt 4) hi_std) in
      hi_mean ← mapM as_number all_means ≫= py_max;
      hi_std' ← mapM as_number all_stds ≫= py_max;
      let x_max := num_add hi_mean (num_mul (NInt 4) hi_std') in
      mret (value_of_number x_min, value_of_number x_max)
  | _ => unpack2 x_range
  end.

(** Lines 77-82: one curve per entry of [means]. *)
Definition plot_curve (std_devs : value) (item : string * value) : io curve :=
  let '(label, mean) := item in
  std_dev ← lift (subscript std_devs label);
  call (NormPdf mean std_dev);;
  legend_mean ← lift (py_round mean 4);
  legend_std ← lift (py_round std_dev 4);
  call (PltPlot label);;
  mret {| c_label := label; c_mean := mean; c_std := std_dev;
          c_legend_mean := legend_mean; c_legend_std := legend_std |}.

(** Lines 95-108: size and position of the image, aspect ratio kept. *)
Definition image_box (fig_w fig_h : Z) : Q * Q * Q * Q :=
  let width := letter.1 in
  let height := letter.2 in
  let margin := pdf_margin in
  let aspect_ratio := (inject_Z fig_w / inject_Z fig_h)%Q in
  let '(img_width, img_height) :=
    if negb (Qle_bool ((width - 2 * margin) / (height - 2 * margin))
                      aspect_ratio)%Q
    then let img_height := (height - 2 * margin)%Q in
         ((img_height * aspect_ratio)%Q, img_height)
    else let img_width := (width - 2 * margin)%Q in
         (img_width, (img_width / aspect_ratio)%Q) in
  let x := (margin + (width - 2 * margin - img_width) / 2)%Q in
  let y := (margin + (height - 2 * margin - img_height) / 2)%Q in
  (x, y, img_width, img_height).

Definition get_files : io (gmap string file) := fun w => (Ok (files w), w).

(** [c.drawImage(path, ...)] reads the image file. *)
Definition read_image (path : string) : io figure := fun w =>
  match files w !! path with
  | Some (PngFile fig) => (Ok fig, w)
  | _ => (Raise (LibraryError "OSError" "cannot open image file"), w)
  end.

(** Lines 49-114: the plot page.  The body of the [with] block runs
    between the creation of the temporary file and [os.unlink]; nothing
    catches an exception raised in between. *)
Definition add_plot_page (c : canvas) (plot_data : value) : io canvas :=
  let c := showPage c in
  means ← lift (subscript plot_data "means");
  std_devs ← lift (subscript plot_data "std_devs");
  x_range ← lift (get_or_none plot_data "x_range");
  '(x_min, x_max) ← lift (plot_x_range means std_devs x_range);
  (* with tempfile.NamedTemporaryFile(suffix='.png', delete=False) *)
  call (NamedTemporaryFile ".png");;
  fs ← get_files;
  let temp_filename := tmp_name fs in
  write_file temp_filename EmptyFile;;
  let fig_width := 12 in
  let fig_height := 7 in
  call (PltFigure fig_width fig_height);;
  call (NpLinspace x_min x_max 1000);;
  _ ← lift (py_len means);
  items ← lift (dict_items_of means);
  curves ← mapM (plot_curve std_devs) items;
  call (PltSavefig temp_filename);;
  write_file temp_filename
    (PngFile {| fig_width := fig_width; fig_height := fig_height;
                fig_x_min := x_min; fig_x_max := x_max;
                fig_curves := curves |});;
  let '(x, y, img_width, img_height) := image_box fig_width fig_height in
  call (CanvasDrawImage temp_filename);;
  img ← read_image temp_filename;
  let c := draw c (DrawImage img x y img_width img_height) in
  (* end of the with block *)
  os_unlink temp_filename;;
  mret c.

Definition dict_to_pdf (data plot_data : value) (filename : option string)
  : io value :=
  match filename with
  | None => mret VNone
  | Some filename =>
      let c := Canvas filename in
      let height := letter.2 in
      let margin := pdf_margin in
      let y_position := (height - margin)%Q in
      json_str ← lift (json_dumps data (Some 2));
      let c := draw c (SetFont "Courier" 9) in
      let '(c, _) := draw_lines c y_position (split_lines json_str) in
      c ← (if truthy plot_data then add_plot_page c plot_data else mret c);
      call (CanvasSave filename);;
      write_file filename (PdfFile (saved_pages c));;
      print ("PDF saved as '" +:+ filename +:+ "'");;
      mret VNone
  end.

(** *** get_plot_data (lines 131-140) *)
Definition get_plot_data (summary_stats : value) (render_plot : bool)
  : result value :=
  if negb render_plot then mret VNone
  else
    grouped ← subscript summary_stats "grouped";
    means ← subscript grouped "mean";
    grouped' ← subscript summary_stats "grouped";
    std_devs ← subscript grouped' "std_dev";
    mret (VDict [("means", means); ("std_devs", std_devs)]).

(** *** dict_to_json (lines 143-151) *)

(** An argument of [json.dump]: a value or an open file. *)
Inductive pyobj :=
| Obj (v : value)
| FileObject (path : string).

(** [json.dump(obj, fp)] of the standard library: [obj] is serialised and
    the text is written to [fp]. *)
Definition json_dump (obj fp : pyobj) : io unit :=
  match obj with
  | FileObject _ =>
      lift (Raise (TypeError
        "Object of type TextIOWrapper is not JSON serializable"))
  | Obj v =>
      text ← lift (json_dumps v None);
      match fp with
      | FileObject path => write_file path (OtherFile text)
      | Obj _ => lift (Raise (AttributeError "write"))
      end
  end.

Definition dict_to_json (result : value) (filename : string) : io value :=
  str_result ← lift (json_dumps result None);
  (* with open(filename, 'w') as f *)
  call (OpenForWriting filename);;
  write_file filename EmptyFile;;
  let f := FileObject filename in
  json_dump f (Obj result);;
  mret (VStr str_result).

(** *** save_handler (lines 154-170) *)
Definition save_handler (result : value) (filename : option string)
  (render_plot : bool) : io value :=
  match filename with
  | None => mret result
  | Some filename =>
      let converted_result := convert_types result in
      if endswith filename ".pdf" then
        summary ← lift (subscript converted_result "summary_statistics");
        plot_data ← lift (get_plot_data summary render_plot);
        returned ← dict_to_pdf converted_result plot_data (Some filename);
        mret returned
      else if endswith filename ".json" then
        returned ← dict_to_json converted_result filename;
        mret returned
      else
        lift (Raise (UnboundLocalError "returned"))
  end.

End SaveStats.

(** ** anova.py *)

(** [obj[k1][k2]...[kn] = v] on nested dictionaries. *)
Fixpoint set_path (obj : value) (path : list string) (v : value)
  : result value :=
  match path, obj with
  | [], _ => Ok v
  | [k], VDict d => Ok (VDict (dict_set d k v))
  | k :: rest, VDict d =>
      child ← subscript obj k;
      child' ← set_path child rest v;
      Ok (VDict (dict_set d k child'))
  | _ :: _, _ => Raise (TypeError "object does not support item assignment")
  end.

Section Anova.
Context `{L : Libs}.

(** Modelled from the spec: [load_data_from_path] of [utils/load_data.py],
    which is not among the sources.  Section 4.1: given a path-like value
    or an in-memory table it returns a Table; an in-memory table is taken
    as it is, a path is read by the table reader. *)
Definition load_data_from_path (data : data_source) : result DataFrame :=
  match data with
  | InMemory df => Ok df
  | FromPath path => read_table path
  end.

(** [f"C({name})"] *)
Definition C (name : string) : string := "C(" +:+ name +:+ ")".

(** *** anova1way (lines 14-71) *)
Definition anova1way (data : data_source) (group_column data_column : string)
  : io value :=
  let result := [] in
  data ← lift (load_data_from_path data);
  let formula := data_column +:+ " ~ " +:+ C group_column in
  model ← lift (ols_fit formula data);
  anova_table ← lift (anova_lm model 2);
  F ← lift (loc anova_table (C group_column) "F");
  p ← lift (loc anova_table (C group_column) "PR(>F)");
  levels ← lift (df_getitem data group_column);
  let df_between := Z.of_nat (length (unique levels)) - 1 in
  levels' ← lift (df_getitem data group_column);
  let df_within := df_len data - Z.of_nat (length (unique levels')) in
  summary_stats ←
    lift (calculate_summary_statistics data group_column data_column);
  normality_result ← lift (test_normality_assumption model);
  homogeneity_variances_result ←
    lift (test_variance_homogeneity_assumption
            data (OneColumn group_column) data_column);
  let result := dict_set result "F" F in
  p_rounded ← lift (py_round p 4);
  let result := dict_set result "p" p_rounded in
  let result := dict_set result "df_between" (VInt df_between) in
  let result := dict_set result "df_within" (VInt df_within) in
  let result := dict_set result "summary_stats" summary_stats in
  let result := dict_set result "normality_test" normality_result in
  let result := dict_set result "homogeneity_of_variance_test"
                         homogeneity_variances_result in
  dict_to_pdf (VDict result) VNone (Some "anova1way_results.pdf");;
  mret (VDict result).

(** Lines 120-121: the column of the interaction groups, written into the
    table under the name [f"{group_column1}_{group_column2}"]. *)
Definition interaction_column_name (group_column1 group_column2 : string)
  : string := group_column1 +:+ "_" +:+ group_column2.

Definition add_interaction_column (data : DataFrame)
  (group_column1 group_column2 : string) : result DataFrame :=
  let name := interaction_column_name group_column1 group_column2 in
  col1 ← df_getitem data group_column1;
  let left := map (fun c => cell_str c +:+ "_") col1 in
  col2 ← df_getitem data group_column2;
  let joined := zip_with (fun s c => CStr (s +:+ cell_str c)) left col2 in
  Ok (df_setitem data name joined).

(** *** anova2way (lines 74-148).  The second component is the table
    object as the call leaves it: line 121 assigns into it. *)
Definition anova2way (data : data_source)
  (group_column1 group_column2 data_column : string)
  : result (value * DataFrame) :=
  let result := VDict [] in
  data ← load_data_from_path data;
  let formula :=
    data_column +:+ " ~ " +:+ C group_column1 +:+ " + " +:+ C group_column2
    +:+ " + " +:+ C group_column1 +:+ ":" +:+ C group_column2 in
  model ← ols_fit formula data;
  anova_table ← anova_lm model 2;
  summary_stats_group1 ←
    calculate_summary_statistics data group_column1 data_column;
  summary_stats_group2 ←
    calculate_summary_statistics data group_column2 data_column;
  let interaction_name :=
    interaction_column_name group_column1 group_column2 in
  data ← add_interaction_column data group_column1 group_column2;
  summary_stats_interaction ←
    calculate_summary_statistics data interaction_name data_column;
  result ← set_path result ["main_effects"] (VDict []);
  result ← set_path result ["main_effects"; group_column1] (VDict []);
  result ← set_path result ["main_effects"; group_column2] (VDict []);
  result ← set_path result ["interaction"] (VDict []);
  F1 ← loc anova_table (C group_column1) "F";
  result ← set_path result ["main_effects"; group_column1; "F"] F1;
  p1 ← loc anova_table (C group_column1) "PR(>F)" ≫= (fun p => py_round p 4);
  result ← set_path result ["main_effects"; group_column1; "p"] p1;
  F2 ← loc anova_table (C group_column2) "F";
  result ← set_path result ["main_effects"; group_column2; "F"] F2;
  p2 ← loc anova_table (C group_column2) "PR(>F)" ≫= (fun p => py_round p 4);
  result ← set_path result ["main_effects"; group_column2; "p"] p2;
  let interaction_key := C group_column1 +:+ ":" +:+ C group_column2 in
  Fi ← loc anova_table interaction_key "F";
  result ← set_path result ["interaction"; "F"] Fi;
  pi ← loc anova_table interaction_key "PR(>F)" ≫= (fun p => py_round p 4);
  result ← set_path result ["interaction"; "p"] pi;
  result ←
    set_path result ["summary_stats_" +:+ group_column1] summary_stats_group1;
  result ←
    set_path result ["summary_stats_" +:+ group_column2] summary_stats_group2;
  result ←
    set_path result ["summary_stats_interaction"] summary_stats_interaction;
  normality_result ← test_normality_assumption model;
  homogeneity_variances_result ←
    test_variance_homogeneity_assumption
      data (Columns [group_column1; group_column2]) data_column;
  result ← set_path result ["normality_test"] normality_result;
  result ←
    set_path result ["homogeneity_of_variance_test"]
             homogeneity_variances_result;
  Ok (result, data).

End Anova.

(** ** Concrete libraries and tables for the scenarios *)

Module Scenario.

(** Libraries that behave as on a normal run: the model fit needs the
    columns [terms] in the table (patsy raises a [PatsyError] for a name
    it cannot resolve), the ANOVA table is [table], the summary statistics
    are [summary], and [failing] says which drawing call raises. *)
Definition libs (terms : list string) (table : anova_table)
  (summary : value) (failing : lib_call -> option exn) : Libs :=
  {| Model := unit;
     read_table := fun path =>
       Raise (LibraryError "FileNotFoundError" path);
     ols_fit := fun formula data =>
       if forallb (fun t => bool_decide (is_Some (dict_get data t))) terms
       then Ok ()
       else Raise (LibraryError "PatsyError" "Error evaluating factor");
     anova_lm := fun _ _ => Ok table;
     calculate_summary_statistics := fun _ _ _ => Ok summary;
     test_normality_assumption := fun _ => Ok (VDict []);
     test_variance_homogeneity_assumption := fun _ _ _ => Ok (VDict []);
     json_dumps := fun _ _ => Ok ("{" +:+ String "010" "}");
     float_str := fun _ => "0.0";
     tmp_name := fun _ => "/tmp/tmpplot.png";
     lib_raises := failing |}.

Definition no_failure : lib_call -> option exn := fun _ => None.

(** Groups A = [1, 2, 3] and B = [4, 5, 6] on one factor column. *)
Definition two_groups : DataFrame :=
  [("group", [CStr "A"; CStr "A"; CStr "A"; CStr "B"; CStr "B"; CStr "B"]);
   ("y", [CInt 1; CInt 2; CInt 3; CInt 4; CInt 5; CInt 6])].

Definition two_groups_table : anova_table :=
  [("C(group)", [("F", VScalar (VFloat (27 # 2)));
                 ("PR(>F)", VScalar (VFloat (213 # 10000)))]);
   ("Residual", [])].

Definition two_groups_summary : value :=
  VDict [("grouped",
          VDict [("mean", VDict [("A", VFloat 2); ("B", VFloat 5)]);
                 ("std_dev", VDict [("A", VFloat 1); ("B", VFloat 1)])])].

Definition one_way_libs : Libs :=
  libs ["y"; "group"] two_groups_table two_groups_summary no_failure.

Definition empty_world : world := {| files := ∅; stdout := [] |}.

End Scenario.

(** ** Notions the properties are stated with *)

(** The documented keys of a one-way result. *)
Definition one_way_keys : list string :=
  ["F"; "p"; "df_between"; "df_within"; "summary_stats"; "normality_test";
   "homogeneity_of_variance_test"].

(** Nothing on the disk changes between two worlds. *)
Definition no_file_written (before after : world) : Prop :=
  files after = files before.

(** The range as the specification words it: from the smallest
    (mean - 4 std) to the largest (mean + 4 std) over the groups, each
    group given by its (mean, std). *)
Definition claimed_x_range (groups : list (Q * Q)) : option (Q * Q) :=
  match groups with
  | [] => None
  | (m, s) :: rest =>
      Some (fold_left (fun lo g => Qmin lo (g.1 - 4 * g.2)) rest (m - 4 * s),
            fold_left (fun hi g => Qmax hi (g.1 + 4 * g.2)) rest (m + 4 * s))%Q
  end.

(** [obj[k1][k2]...[kn]] *)
Fixpoint get_path (obj : value) (path : list string) : result value :=
  match path with
  | [] => Ok obj
  | k :: rest => subscript obj k ≫= fun child => get_path child rest
  end.

(** Two paths part at some key. *)
Fixpoint diverge (p q : list string) : Prop :=
  match p, q with
  | k1 :: r1, k2 :: r2 => k1 <> k2 \/ diverge r1 r2
  | _, _ => False
  end.








(** *** Plot specifications *)

Module PlotScenario.

(** A plot specification whose standard deviations lack the group "A". *)
Definition mismatched_plot_data : value :=
  VDict [("means", VDict [("A", VFloat 2)]);
         ("std_devs", VDict [("B", VFloat 1)])].

Definition plot_data : value :=
  VDict [("means", VDict [("A", VFloat 2); ("B", VFloat 5)]);
         ("std_devs", VDict [("A", VFloat 1); ("B", VFloat 1)])].

(** The image cannot be embedded. *)
Definition draw_image_fails (c : lib_call) : option exn :=
  match c with
  | CanvasDrawImage _ => Some (LibraryError "OSError" "cannot embed image")
  | _ => None
  end.

Definition failing_libs : Libs :=
  Scenario.libs [] [] VNone draw_image_fails.

End PlotScenario.

(** *** A two-factor design *)

Module TwoWayScenario.

Definition table : anova_table :=
  [("C(diet)", [("F", VScalar (VFloat 3)); ("PR(>F)", VScalar (VFloat (1234567 # 10000000)))]);
   ("C(dose)", [("F", VScalar (VFloat (5 # 2))); ("PR(>F)", VScalar (VFloat (1 # 5)))]);
   ("C(diet):C(dose)",
    [("F", VScalar (VFloat 0)); ("PR(>F)", VScalar (VFloat 1))]);
   ("Residual", [])].

Definition two_way_libs : Libs :=
  Scenario.libs ["y"; "diet"; "dose"] table (VDict []) Scenario.no_failure.

Definition crossed : DataFrame :=
  [("diet", [CStr "a"; CStr "a"; CStr "b"; CStr "b"]);
   ("dose", [CInt 1; CInt 2; CInt 1; CInt 2]);
   ("y", [CInt 3; CInt 4; CInt 5; CInt 7])].

(** The same table with a source column that is called "diet_dose". *)
Definition crossed_with_diet_dose : DataFrame :=
  crossed ++ [("diet_dose", [CInt 10; CInt 20; CInt 30; CInt 40])].

End TwoWayScenario.

(** ** Notions for the properties of the rendering and conversion code *)

(** A value as [json] takes it: no library scalar and no tuple inside. *)
Fixpoint plain (v : value) : bool :=
  match v with
  | VScalar _ | VTuple _ => false
  | VList l => forallb plain l
  | VDict d => forallb (fun kv => plain kv.2) d
  | _ => true
  end.


(** The lines of text drawn on a page, top to bottom, and their heights. *)
Definition page_texts (p : page) : list string :=
  flat_map (fun op => match op with DrawString _ _ t => [t] | _ => [] end) p.

Definition page_positions (p : page) : list Q :=
  flat_map (fun op => match op with DrawString _ y _ => [y] | _ => [] end) p.

(** The pages of a canvas, the one being drawn last. *)
Definition all_pages (c : canvas) : list page := c_pages c ++ [c_page c].

(** A page of text as [dict_to_pdf] lays it out: at most 67 lines, each
    between the bottom margin (36pt) and the top margin (756pt). *)
Definition text_page_ok (p : page) : Prop :=
  (length (page_texts p) <= 67)%nat /\
  Forall (fun y => 36 <= y /\ y <= 756)%Q (page_positions p).

(** Two file systems agree everywhere but at [path]. *)
Definition same_files_but (path : string) (fs fs' : gmap string file) : Prop :=
  forall other, other <> path -> fs' !! other = fs !! other.

(** ** Reasoning about the monads *)

Lemma result_bind_ok {A B} (m : result A) (f : A -> result B) (b : B) :
  m ≫= f = Ok b -> exists a, m = Ok a /\ f a = Ok b.
Proof. destruct m as [a|e]; simpl; [eauto | discriminate]. Qed.

Lemma io_bind_ok {A B} (m : io A) (f : A -> io B) w b w2 :
  (m ≫= f) w = (Ok b, w2) ->
  exists a w1, m w = (Ok a, w1) /\ f a w1 = (Ok b, w2).
Proof.
  unfold mbind, io_bind. destruct (m w) as [[a|e] w1]; [eauto | discriminate].
Qed.

Lemma lift_ok {A} (r : result A) w a w1 :
  lift r w = (Ok a, w1) -> r = Ok a /\ w1 = w.
Proof. unfold lift. intros [= -> ->]. done. Qed.

Lemma io_ret_ok {A} (a b : A) w w1 :
  (mret a : io A) w = (Ok b, w1) -> b = a /\ w1 = w.
Proof. intros [= -> ->]. done. Qed.

(** Split a successful run into its successful steps. *)
Ltac io_steps H :=
  repeat (first
    [ apply io_bind_ok in H as (? & ? & ? & H)
    | apply io_ret_ok in H as [? ?] ]);
  repeat match goal with
         | G : lift _ _ = (Ok _, _) |- _ => apply lift_ok in G as [G ?]
         end;
  try subst.

Lemma unique_from_length seen s :
  (length (unique_from seen s) <= length s)%nat.
Proof.
  revert seen. induction s as [|c r IH]; intros seen; simpl; [lia|].
  destruct (existsb (cell_eqb c) seen); simpl.
  - specialize (IH seen). lia.
  - specialize (IH (c :: seen)). lia.
Qed.

Lemma unique_length s : (length (unique s) <= length s)%nat.
Proof. apply unique_from_length. Qed.

Lemma rectangular_column data name col :
  rectangular data = true ->
  df_getitem data name = Ok col ->
  Z.of_nat (length col) = df_len data.
Proof.
  unfold rectangular, df_getitem. intros Hrect Hget.
  destruct (dict_get data name) as [c|] eqn:Hc; [|discriminate].
  injection Hget as ->.
  rewrite forallb_forall in Hrect.
  assert (Hin : In (name, col) data \/ exists n, In (n, col) data).
  { clear Hrect. induction data as [|[k v] d IH]; simpl in *; [discriminate|].
    destruct (String.eqb k name) eqn:Hk.
    - injection Hc as ->. right. eauto.
    - destruct (IH Hc) as [?|[n ?]]; eauto. }
  destruct Hin as [Hin|[n Hin]]; apply Hrect in Hin; simpl in Hin; lia.
Qed.

(** ** One-way ANOVA: degrees of freedom *)

(** C1.  Whenever [anova1way] returns a result for a table (all columns of
    equal length) whose grouping column has at least two distinct levels,
    the result's "df_between" is the number of distinct levels minus 1 and
    its "df_within" is the number of rows minus the number of distinct
    levels; both are integers and neither is negative. *)
Theorem anova1way_degrees_of_freedom `{L : Libs}
  (src : data_source) (group_column data_column : string)
  (data : DataFrame) (levels : Series) (w w' : world) (r : value) :
  load_data_from_path src = Ok data ->
  rectangular data = true ->
  df_getitem data group_column = Ok levels ->
  (2 <= length (unique levels))%nat ->
  anova1way src group_column data_column w = (Ok r, w') ->
  let groups := Z.of_nat (length (unique levels)) in
  subscript r "df_between" = Ok (VInt (groups - 1)) /\
  subscript r "df_within" = Ok (VInt (df_len data - groups)) /\
  0 <= groups - 1 /\ 0 <= df_len data - groups.
Proof.
  intros Hload Hrect Hcol Hlev Hrun groups.
  unfold anova1way in Hrun. io_steps Hrun.
  rewrite Hload in *. simplify_eq.
  repeat match goal with
         | G : df_getitem _ _ = Ok _ |- _ => rewrite Hcol in G; injection G as <-
         end.
  pose proof (unique_length levels) as Hle.
  pose proof (rectangular_column _ _ _ Hrect Hcol) as Hlen.
  repeat split; try (subst groups; lia); reflexivity.
Qed.

Lemma anova1way_degrees_of_freedom_witness :
  exists r w',
    @anova1way Scenario.one_way_libs (InMemory Scenario.two_groups)
               "group" "y" Scenario.empty_world = (Ok r, w') /\
    subscript r "df_between" = Ok (VInt 1) /\
    subscript r "df_within" = Ok (VInt 4).
Proof.
  eexists _, _. split; [vm_compute; reflexivity|].
  destruct (@anova1way_degrees_of_freedom Scenario.one_way_libs
              (InMemory Scenario.two_groups) "group" "y" Scenario.two_groups
              [CStr "A"; CStr "A"; CStr "A"; CStr "B"; CStr "B"; CStr "B"]
              Scenario.empty_world _ _
              eq_refl eq_refl eq_refl ltac:(vm_compute; lia)
              ltac:(vm_compute; reflexivity)) as (Hb & Hw & _).
  split; [exact Hb | exact Hw].
Defined.

(** ** Rendering: what reaches the disk *)

Lemma call_ok `{L : Libs} c w u w' :
  call c w = (Ok u, w') -> lib_raises c = None /\ w' = w.
Proof.
  unfold call, lift. destruct (lib_raises c); [discriminate|].
  intros [= _ <-]. done.
Qed.

(** A successful [dict_to_pdf] with a destination leaves a PDF there. *)
Lemma dict_to_pdf_writes `{L : Libs} data plot_data filename w v w' :
  dict_to_pdf data plot_data (Some filename) w = (Ok v, w') ->
  exists pages, files w' !! filename = Some (PdfFile pages).
Proof.
  unfold dict_to_pdf. intros H.
  apply io_bind_ok in H as (json_str & w1 & _ & H).
  destruct (draw_lines _ _ _) as [c y].
  apply io_bind_ok in H as (c' & w2 & _ & H).
  apply io_bind_ok in H as (? & w3 & _ & H).
  apply io_bind_ok in H as (? & w4 & Hw & H).
  apply io_bind_ok in H as (? & w5 & Hp & H).
  apply io_ret_ok in H as [_ ->].
  unfold write_file in Hw. injection Hw as _ <-.
  unfold print in Hp. injection Hp as _ <-. simpl.
  eexists. apply lookup_insert_eq.
Qed.

(** C3, as the code has it.  With [filename] None, [save_handler] returns
    the in-memory result mapping itself and [dict_to_pdf] returns at once;
    neither touches the disk or the output.  [anova1way] takes no
    destination: every call that returns has rendered its result to the
    file "anova1way_results.pdf". *)
Theorem no_destination_is_a_no_op `{L : Libs} :
  (forall result render_plot w,
      save_handler result None render_plot w = (Ok result, w)) /\
  (forall data plot_data w,
      dict_to_pdf data plot_data None w = (Ok VNone, w)) /\
  (forall src group_column data_column w r w',
      anova1way src group_column data_column w = (Ok r, w') ->
      exists pages,
        files w' !! "anova1way_results.pdf" = Some (PdfFile pages)).
Proof.
  split; [reflexivity|]. split; [reflexivity|].
  intros src g y w r w' Hrun.
  unfold anova1way in Hrun. io_steps Hrun.
  match goal with
  | G : dict_to_pdf _ _ _ _ = _ |- _ => exact (dict_to_pdf_writes _ _ _ _ _ _ G)
  end.
Qed.

Lemma no_destination_is_a_no_op_witness :
  exists pages,
    files (@anova1way Scenario.one_way_libs (InMemory Scenario.two_groups)
             "group" "y" Scenario.empty_world).2
      !! "anova1way_results.pdf" = Some (PdfFile pages).
Proof.
  destruct (@no_destination_is_a_no_op Scenario.one_way_libs) as (_ & _ & H).
  eapply (H (InMemory Scenario.two_groups) "group" "y" Scenario.empty_world).
  vm_compute. reflexivity.
Defined.

(** C3 as stated fails: a call of [anova1way], which is given no
    destination, succeeds and leaves a file that was not there before. *)
Lemma anova1way_writes_a_file :
  exists r w',
    @anova1way Scenario.one_way_libs (InMemory Scenario.two_groups)
               "group" "y" Scenario.empty_world = (Ok r, w') /\
    files Scenario.empty_world !! "anova1way_results.pdf" = None /\
    is_Some (files w' !! "anova1way_results.pdf") /\
    ~ no_file_written Scenario.empty_world w'.
Proof.
  eexists _, _. split; [vm_compute; reflexivity|].
  split; [reflexivity|]. split; [vm_compute; eauto|].
  unfold no_file_written. intros Heq.
  apply (f_equal (fun m => m !! "anova1way_results.pdf")) in Heq.
  vm_compute in Heq. discriminate.
Qed.

(** ** save_handler: destinations that are neither PDF nor JSON *)

(** C10.  For a destination that is not None and ends with neither ".pdf"
    nor ".json", [save_handler] raises UnboundLocalError for the variable
    [returned], which no branch has assigned; nothing is written. *)
Theorem save_handler_unknown_suffix `{L : Libs}
  (result : value) (filename : string) (render_plot : bool) (w : world) :
  endswith filename ".pdf" = false ->
  endswith filename ".json" = false ->
  save_handler result (Some filename) render_plot w
  = (Raise (UnboundLocalError "returned"), w).
Proof.
  intros Hpdf Hjson. unfold save_handler. rewrite Hpdf, Hjson. reflexivity.
Qed.

Lemma save_handler_unknown_suffix_witness :
  @save_handler Scenario.one_way_libs (VDict [("F", VFloat 1)])
    (Some "results.txt") false Scenario.empty_world
  = (Raise (UnboundLocalError "returned"), Scenario.empty_world).
Proof.
  apply (@save_handler_unknown_suffix Scenario.one_way_libs);
    vm_compute; reflexivity.
Defined.

(** ** dict_to_json *)

(** C5 fails on the code: [dict_to_json] never returns.  It raises on
    every input: either [json.dumps] rejects the result, or the file cannot
    be opened, or, the file being open and empty, [json.dump(f, result)]
    is asked to serialise the file object and raises TypeError.  In the
    last case the destination is left as an empty file, so there is
    nothing to read back. *)
Theorem dict_to_json_always_raises `{L : Libs}
  (result : value) (filename : string) (w : world) :
  exists e w',
    dict_to_json result filename w = (Raise e, w') /\
    (w' = w \/
     (e = TypeError "Object of type TextIOWrapper is not JSON serializable" /\
      files w' = <[filename := EmptyFile]> (files w))).
Proof.
  unfold dict_to_json, mbind, io_bind, lift, call, write_file, json_dump.
  destruct (json_dumps result None) as [s|e]; [|eauto].
  destruct (lib_raises (OpenForWriting filename)) as [e|]; [eauto|].
  simpl. eauto 10.
Qed.

(** ** dict_to_pdf: the temporary image *)

(** C2 fails on the code: [os.unlink] follows the [with] block and nothing
    catches an exception raised inside it.  Two runs from an empty disk:
    - the standard deviations miss a group of the means: [std_devs[label]]
      raises KeyError in the plotting loop and the temporary image file,
      created empty, stays on the disk;
    - embedding the image raises: the temporary file, now holding the
      rendered plot, stays on the disk.
    In both the PDF itself is not written. *)
Theorem dict_to_pdf_failure_leaves_temp_file :
  let run1 := @dict_to_pdf Scenario.one_way_libs (VDict [])
                PlotScenario.mismatched_plot_data (Some "report.pdf")
                Scenario.empty_world in
  let run2 := @dict_to_pdf PlotScenario.failing_libs (VDict [])
                PlotScenario.plot_data (Some "report.pdf")
                Scenario.empty_world in
  files Scenario.empty_world !! "/tmp/tmpplot.png" = None /\
  (run1.1 = Raise (KeyError "A") /\
   files run1.2 !! "/tmp/tmpplot.png" = Some EmptyFile /\
   files run1.2 !! "report.pdf" = None) /\
  (run2.1 = Raise (LibraryError "OSError" "cannot embed image") /\
   (exists fig, files run2.2 !! "/tmp/tmpplot.png" = Some (PngFile fig)) /\
   files run2.2 !! "report.pdf" = None).
Proof.
  cbv zeta. split; [reflexivity|]. split.
  - vm_compute. auto.
  - vm_compute. eauto.
Qed.

(** ** Key names *)

(** The keys of a one-way result are exactly the documented ones. *)
Lemma anova1way_result_keys `{L : Libs} src group_column data_column w r w' :
  anova1way src group_column data_column w = (Ok r, w') ->
  exists d, r = VDict d /\ dict_keys d = one_way_keys.
Proof.
  intros Hrun. unfold anova1way in Hrun. io_steps Hrun.
  eexists. split; reflexivity.
Qed.

Lemma dict_get_map_values {A B} (f : A -> B) (d : list (string * A)) k :
  dict_get (map (fun kv => (kv.1, f kv.2)) d) k = f <$> dict_get d k.
Proof.
  induction d as [|[k' v] d IH]; simpl; [done|].
  destruct (String.eqb k' k); [done | apply IH].
Qed.

Lemma dict_get_not_key {A} (d : list (string * A)) k :
  ~ In k (dict_keys d) -> dict_get d k = None.
Proof.
  induction d as [|[k' v] d IH]; simpl; [done|]. intros Hn.
  destruct (String.eqb_spec k' k) as [->|_]; [tauto|]. apply IH. tauto.
Qed.

(** The PDF branch of [save_handler] looks the summary statistics up under
    "summary_statistics", a key no one-way result has. *)
Lemma save_handler_pdf_one_way_result `{L : Libs}
  src group_column data_column w r w' filename render_plot w2 :
  anova1way src group_column data_column w = (Ok r, w') ->
  endswith filename ".pdf" = true ->
  save_handler r (Some filename) render_plot w2
  = (Raise (KeyError "summary_statistics"), w2).
Proof.
  intros Hrun Hpdf.
  destruct (anova1way_result_keys _ _ _ _ _ _ Hrun) as (d & -> & Hkeys).
  unfold save_handler. rewrite Hpdf. simpl.
  rewrite dict_get_map_values, dict_get_not_key; [reflexivity|].
  rewrite Hkeys. vm_compute. intuition discriminate.
Qed.

(** C4 fails on the code.  The result of [anova1way] has exactly the
    documented keys, with the summary statistics under "summary_stats";
    [save_handler], rendering that result to a ".pdf" destination, reads
    the key "summary_statistics" and raises KeyError, before anything is
    drawn. *)
Theorem save_handler_reads_another_key :
  exists d w1,
    @anova1way Scenario.one_way_libs (InMemory Scenario.two_groups)
               "group" "y" Scenario.empty_world = (Ok (VDict d), w1) /\
    dict_keys d = one_way_keys /\
    @save_handler Scenario.one_way_libs (VDict d) (Some "report.pdf") true w1
    = (Raise (KeyError "summary_statistics"), w1) /\
    @save_handler Scenario.one_way_libs (VDict d) (Some "report.pdf") false w1
    = (Raise (KeyError "summary_statistics"), w1).
Proof.
  eexists _, _. split; [vm_compute; reflexivity|].
  split; [reflexivity|]. split; vm_compute; reflexivity.
Qed.

(** ** Absent columns *)

(** C8 as stated fails: the grouping column "treatment" is not in the
    table; the model fit raises patsy's error, which [anova1way] lets
    through.  The error is not a ColumnNotFound. *)
Lemma anova1way_absent_column_not_ColumnNotFound :
  let run := @anova1way
               (Scenario.libs ["y"; "treatment"] Scenario.two_groups_table
                  Scenario.two_groups_summary Scenario.no_failure)
               (InMemory Scenario.two_groups) "treatment" "y"
               Scenario.empty_world in
  dict_get Scenario.two_groups "treatment" = None /\
  run.1 = Raise (LibraryError "PatsyError" "Error evaluating factor") /\
  ~ raises_class run.1 "ColumnNotFound".
Proof.
  cbv zeta. split; [reflexivity|]. split; [vm_compute; reflexivity|].
  vm_compute. discriminate.
Qed.

(** C8, as the code has it.  [anova1way] with a grouping column that is
    not in the table does not return: it raises, leaving the disk as it
    was, either the exception of the model fit or of the ANOVA table
    (passed on unchanged), or, when both libraries accept the call, a
    KeyError from a lookup by the missing name. *)
Theorem anova1way_absent_group_column `{L : Libs}
  (src : data_source) (group_column data_column : string)
  (data : DataFrame) (w : world) :
  load_data_from_path src = Ok data ->
  dict_get data group_column = None ->
  exists e,
    anova1way src group_column data_column w = (Raise e, w) /\
    (ols_fit (data_column +:+ " ~ " +:+ C group_column) data = Raise e \/
     (exists model,
         ols_fit (data_column +:+ " ~ " +:+ C group_column) data = Ok model
         /\ anova_lm model 2 = Raise e) \/
     exn_class e = "KeyError").
Proof.
  intros Hload Hcol.
  unfold anova1way, mbind, io_bind, lift. rewrite Hload.
  destruct (ols_fit _ data) as [model|e] eqn:Hfit; [|eauto].
  destruct (anova_lm model 2) as [t|e] eqn:Htab; [|eauto 10].
  unfold loc. destruct (dict_get t (C group_column)) as [row|]; [|eauto 10].
  destruct (dict_get row "F"); [|eauto 10].
  destruct (dict_get row "PR(>F)"); [|eauto 10].
  unfold df_getitem. rewrite Hcol. eauto 10.
Qed.

Lemma anova1way_absent_group_column_witness :
  exists e,
    @anova1way Scenario.one_way_libs (InMemory Scenario.two_groups)
               "treatment" "y" Scenario.empty_world
    = (Raise e, Scenario.empty_world).
Proof.
  destruct (@anova1way_absent_group_column Scenario.one_way_libs
              (InMemory Scenario.two_groups) "treatment" "y"
              Scenario.two_groups Scenario.empty_world eq_refl eq_refl)
    as (e & Hrun & _).
  exists e. exact Hrun.
Defined.

(** ** The x-axis range of the plot *)

Lemma num_ltb_lt a b : num_ltb a b = true <-> (number_Q a < number_Q b)%Q.
Proof.
  unfold num_ltb. rewrite negb_true_iff, <- not_true_iff_false, Qle_bool_iff.
  split; [apply Qnot_le_lt | apply Qlt_not_le].
Qed.

Lemma num_ltb_ge a b : num_ltb a b = false <-> (number_Q b <= number_Q a)%Q.
Proof.
  unfold num_ltb. rewrite negb_false_iff. apply Qle_bool_iff.
Qed.

Lemma fold_min_spec r x :
  let best := fold_left (fun best y => if num_ltb y best then y else best) r x in
  In best (x :: r) /\
  forall y, In y (x :: r) -> (number_Q best <= number_Q y)%Q.
Proof.
  revert x. induction r as [|z r IH]; intros x; simpl.
  - split; [auto|]. intros y [<-|[]]. apply Qle_refl.
  - destruct (num_ltb z x) eqn:Hlt.
    + destruct (IH z) as [Hin Hle]. split.
      * simpl in Hin. tauto.
      * intros y [<-|Hy]; [|apply Hle, Hy].
        apply num_ltb_lt in Hlt. specialize (Hle z (or_introl eq_refl)).
        apply Qlt_le_weak in Hlt. eapply Qle_trans; eassumption.
    + destruct (IH x) as [Hin Hle]. split.
      * simpl in Hin. tauto.
      * intros y [<-|[<-|Hy]].
        -- apply Hle. now left.
        -- apply num_ltb_ge in Hlt.
           specialize (Hle x (or_introl eq_refl)).
           eapply Qle_trans; eassumption.
        -- apply Hle. now right.
Qed.

Lemma fold_max_spec r x :
  let best := fold_left (fun best y => if num_ltb best y then y else best) r x in
  In best (x :: r) /\
  forall y, In y (x :: r) -> (number_Q y <= number_Q best)%Q.
Proof.
  revert x. induction r as [|z r IH]; intros x; simpl.
  - split; [auto|]. intros y [<-|[]]. apply Qle_refl.
  - destruct (num_ltb x z) eqn:Hlt.
    + destruct (IH z) as [Hin Hle]. split.
      * simpl in Hin. tauto.
      * intros y [<-|Hy]; [|apply Hle, Hy].
        apply num_ltb_lt in Hlt. specialize (Hle z (or_introl eq_refl)).
        apply Qlt_le_weak in Hlt. eapply Qle_trans; eassumption.
    + destruct (IH x) as [Hin Hle]. split.
      * simpl in Hin. tauto.
      * intros y [<-|[<-|Hy]].
        -- apply Hle. now left.
        -- apply num_ltb_ge in Hlt.
           specialize (Hle x (or_introl eq_refl)).
           eapply Qle_trans; eassumption.
        -- apply Hle. now right.
Qed.

Lemma py_min_spec l :
  l <> [] ->
  exists x, py_min l = Ok x /\ In x l /\
            forall y, In y l -> (number_Q x <= number_Q y)%Q.
Proof.
  destruct l as [|x r]; [done|]. intros _. eexists. split; [reflexivity|].
  apply fold_min_spec.
Qed.

Lemma py_max_spec l :
  l <> [] ->
  exists x, py_max l = Ok x /\ In x l /\
            forall y, In y l -> (number_Q y <= number_Q x)%Q.
Proof.
  destruct l as [|x r]; [done|]. intros _. eexists. split; [reflexivity|].
  apply fold_max_spec.
Qed.

Lemma num_sub_Q a b : (number_Q (num_sub a b) == number_Q a - number_Q b)%Q.
Proof.
  destruct a, b; simpl; unfold Z.sub;
    rewrite ?inject_Z_plus, ?inject_Z_opp; reflexivity.
Qed.

Lemma num_add_Q a b : (number_Q (num_add a b) == number_Q a + number_Q b)%Q.
Proof.
  destruct a, b; simpl; rewrite ?inject_Z_plus; reflexivity.
Qed.

Lemma num_mul_Q a b : (number_Q (num_mul a b) == number_Q a * number_Q b)%Q.
Proof.
  destruct a, b; simpl; rewrite ?inject_Z_mult; reflexivity.
Qed.

(** C6 as stated fails: group A has mean 0 and std 1, group B mean 10 and
    std 5.  The smallest (mean - 4 std) is -10; the plot starts at -20. *)
Lemma plot_x_range_is_not_per_group :
  exists lo hi lo' hi',
    plot_x_range (VDict [("A", VFloat 0); ("B", VFloat 10)])
                 (VDict [("A", VFloat 1); ("B", VFloat 5)]) VNone
    = Ok (VFloat lo, VFloat hi) /\
    claimed_x_range [(0, 1); (10, 5)]%Q = Some (lo', hi') /\
    (lo == -20)%Q /\ (lo' == -10)%Q /\ ~ (lo == lo')%Q.
Proof.
  eexists _, _, _, _. split; [vm_compute; reflexivity|].
  split; [vm_compute; reflexivity|].
  split; [reflexivity|]. split; [reflexivity|]. intros H. discriminate H.
Qed.

(** C6, as the code has it.  Without an explicit range, and with numbers
    for the means and standard deviations (neither empty), the plot spans
    from (smallest mean) - 4 (largest std) to (largest mean) + 4 (largest
    std), the largest std being taken over all groups.  An explicit range,
    a pair, is used as given. *)
Theorem plot_x_range_spec
  (means std_devs : list (string * value)) (ms ss : list number) :
  mapM as_number (dict_values means) = Ok ms ->
  mapM as_number (dict_values std_devs) = Ok ss ->
  ms <> [] -> ss <> [] ->
  (exists m_lo m_hi s_hi x_min x_max,
      In m_lo ms /\ In m_hi ms /\ In s_hi ss /\
      (forall m, In m ms ->
                 (number_Q m_lo <= number_Q m <= number_Q m_hi)%Q) /\
      (forall s, In s ss -> (number_Q s <= number_Q s_hi)%Q) /\
      plot_x_range (VDict means) (VDict std_devs) VNone
      = Ok (value_of_number x_min, value_of_number x_max) /\
      (number_Q x_min == number_Q m_lo - 4 * number_Q s_hi)%Q /\
      (number_Q x_max == number_Q m_hi + 4 * number_Q s_hi)%Q) /\
  (forall a b,
      plot_x_range (VDict means) (VDict std_devs) (VTuple [a; b]) = Ok (a, b)
      /\
      plot_x_range (VDict means) (VDict std_devs) (VList [a; b]) = Ok (a, b)).
Proof.
  intros Hms Hss Hm Hs. split; [|intros a b; split; reflexivity].
  destruct (py_min_spec ms Hm) as (m_lo & Hmin & Hlo_in & Hlo).
  destruct (py_max_spec ms Hm) as (m_hi & Hmax & Hhi_in & Hhi).
  destruct (py_max_spec ss Hs) as (s_hi & Hsmax & Hs_in & Hshi).
  exists m_lo, m_hi, s_hi.
  exists (num_sub m_lo (num_mul (NInt 4) s_hi)),
         (num_add m_hi (num_mul (NInt 4) s_hi)).
  repeat split; auto.
  - unfold plot_x_range. simpl.
    rewrite Hms, Hss. simpl. rewrite Hmin, Hsmax, Hmax. reflexivity.
  - rewrite num_sub_Q, num_mul_Q. reflexivity.
  - rewrite num_add_Q, num_mul_Q. reflexivity.
Qed.

Lemma plot_x_range_spec_witness :
  exists x_min x_max,
    plot_x_range (VDict [("A", VFloat 0); ("B", VFloat 10)])
                 (VDict [("A", VFloat 1); ("B", VFloat 5)]) VNone
    = Ok (value_of_number x_min, value_of_number x_max).
Proof.
  destruct (plot_x_range_spec
              [("A", VFloat 0); ("B", VFloat 10)]
              [("A", VFloat 1); ("B", VFloat 5)]
              [NFloat 0; NFloat 10] [NFloat 1; NFloat 5]
              eq_refl eq_refl ltac:(discriminate) ltac:(discriminate))
    as [(m_lo & m_hi & s_hi & x_min & x_max & _ & _ & _ & _ & _ & H & _) _].
  exists x_min, x_max. exact H.
Defined.

(** ** The interaction column of the two-way analysis *)








(** ** F-statistics and p-values *)

Lemma dict_get_set_eq {A} (d : list (string * A)) k v :
  dict_get (dict_set d k v) k = Some v.
Proof.
  induction d as [|[k' v'] d IH]; simpl.
  - by rewrite String.eqb_refl.
  - destruct (String.eqb k' k) eqn:Hk; simpl.
    + by rewrite String.eqb_refl.
    + by rewrite Hk.
Qed.

Lemma dict_get_set_ne {A} (d : list (string * A)) k k' v :
  k <> k' -> dict_get (dict_set d k v) k' = dict_get d k'.
Proof.
  intros Hne. induction d as [|[k0 v0] d IH]; simpl.
  - by apply String.eqb_neq in Hne as ->.
  - destruct (String.eqb_spec k0 k) as [->|Hk]; simpl.
    + by apply String.eqb_neq in Hne as ->.
    + by rewrite IH.
Qed.

Lemma get_path_set_path obj p v obj' :
  set_path obj p v = Ok obj' -> get_path obj' p = Ok v.
Proof.
  revert obj obj'. induction p as [|k rest IH]; intros obj obj' Hset.
  - simpl in Hset. by injection Hset as ->.
  - destruct obj; try (destruct rest; discriminate).
    destruct rest as [|k2 rest].
    + injection Hset as <-. simpl. by rewrite dict_get_set_eq.
    + cbn [set_path] in Hset.
      apply result_bind_ok in Hset as (child & Hc & Hset).
      apply result_bind_ok in Hset as (child' & Hc' & Hset).
      injection Hset as <-.
      cbn [get_path subscript]. rewrite dict_get_set_eq.
      exact (IH _ _ Hc').
Qed.

Lemma get_path_set_path_other obj p v obj' q :
  set_path obj p v = Ok obj' -> diverge p q ->
  get_path obj' q = get_path obj q.
Proof.
  revert obj obj' q. induction p as [|k rest IH]; intros obj obj' q Hset Hd.
  - destruct Hd.
  - destruct q as [|k' q]; [destruct Hd|].
    destruct obj; try (destruct rest; discriminate).
    destruct rest as [|k2 rest].
    + injection Hset as <-. destruct Hd as [Hne|[]].
      cbn [get_path subscript]. by rewrite dict_get_set_ne.
    + cbn [set_path] in Hset.
      apply result_bind_ok in Hset as (child & Hc & Hset).
      apply result_bind_ok in Hset as (child' & Hc' & Hset).
      injection Hset as <-.
      cbn [get_path subscript].
      destruct (String.eqb_spec k k') as [<-|Hne].
      * destruct Hd as [Hne|Hd]; [done|].
        rewrite dict_get_set_eq. simpl in Hc.
        destruct (dict_get entries k); [|discriminate].
        injection Hc as ->. simpl. exact (IH _ _ _ Hc' Hd).
      * by rewrite dict_get_set_ne.
Qed.









(** Follow a path back through the assignments that built the result. *)
Ltac diverging :=
  simpl;
  first [ left; first [ discriminate | assumption | congruence
                      | intros ?; vm_compute in *; discriminate ]
        | right; diverging ].

Ltac trace_back :=
  repeat match goal with
         | H : set_path ?a ?p ?v = Ok ?b |- get_path ?b ?q = _ =>
             first [ exact (get_path_set_path _ _ _ _ H)
                   | rewrite (get_path_set_path_other _ _ _ _ q H)
                       by diverging ]
         end.



(** ** The temporary image on a run that succeeds *)

Lemma plot_curve_world `{L : Libs} std_devs item w :
  (plot_curve std_devs item w).2 = w.
Proof.
  destruct item as [label mean].
  unfold plot_curve, mbind, io_bind, lift, call. simpl.
  repeat match goal with
         | |- context [match ?x with _ => _ end] => destruct x; simpl
         end; reflexivity.
Qed.

Lemma mapM_plot_curve_world `{L : Libs} std_devs items w :
  (mapM (plot_curve std_devs) items w).2 = w.
Proof.
  revert w. induction items as [|item items IH]; intros w; [reflexivity|].
  cbn [mapM]. unfold mbind at 1, io_bind at 1.
  pose proof (plot_curve_world std_devs item w) as Hc.
  destruct (plot_curve std_devs item w) as [[c|e] w1]; simpl in Hc; subst w1;
    [|reflexivity].
  unfold mbind at 1, io_bind at 1.
  pose proof (IH w) as Hm.
  destruct (mapM (plot_curve std_devs) items w) as [[cs|e] w1];
    simpl in Hm; subst w1; reflexivity.
Qed.

(** When the plot page is drawn without an exception, the temporary file
    has been created, filled and removed again. *)
Lemma add_plot_page_ok `{L : Libs} c plot_data w c' w' :
  add_plot_page c plot_data w = (Ok c', w') ->
  files w !! tmp_name (files w) = None ->
  files w' = files w /\ stdout w' = stdout w.
Proof.
  intros Hrun Hfresh. unfold add_plot_page in Hrun.
  apply io_bind_ok in Hrun as (means & ? & [_ ->]%lift_ok & Hrun).
  apply io_bind_ok in Hrun as (std_devs & ? & [_ ->]%lift_ok & Hrun).
  apply io_bind_ok in Hrun as (x_range & ? & [_ ->]%lift_ok & Hrun).
  apply io_bind_ok in Hrun as ([x_min x_max] & ? & [_ ->]%lift_ok & Hrun).
  apply io_bind_ok in Hrun as (? & ? & [_ ->]%call_ok & Hrun).
  apply io_bind_ok in Hrun as (fs & ? & [= <- <-] & Hrun).
  apply io_bind_ok in Hrun as (? & w1 & [= _ <-] & Hrun).
  apply io_bind_ok in Hrun as (? & ? & [_ ->]%call_ok & Hrun).
  apply io_bind_ok in Hrun as (? & ? & [_ ->]%call_ok & Hrun).
  apply io_bind_ok in Hrun as (? & ? & [_ ->]%lift_ok & Hrun).
  apply io_bind_ok in Hrun as (items & ? & [_ ->]%lift_ok & Hrun).
  apply io_bind_ok in Hrun as (curves & w2 & Hcurves & Hrun).
  pose proof (mapM_plot_curve_world std_devs items
                {| files := <[tmp_name (files w) := EmptyFile]> (files w);
                   stdout := stdout w |}) as Hw.
  rewrite Hcurves in Hw. simpl in Hw. subst w2.
  apply io_bind_ok in Hrun as (? & ? & [_ ->]%call_ok & Hrun).
  apply io_bind_ok in Hrun as (? & w2 & [= _ <-] & Hrun). simpl in Hrun.
  apply io_bind_ok in Hrun as (? & ? & [_ ->]%call_ok & Hrun).
  apply io_bind_ok in Hrun as (img & w3 & Himg & Hrun).
  unfold read_image in Himg. simpl in Himg.
  rewrite lookup_insert_eq in Himg. injection Himg as _ <-.
  apply io_bind_ok in Hrun as (? & w4 & Hrm & Hrun).
  unfold os_unlink in Hrm. simpl in Hrm.
  rewrite lookup_insert_eq in Hrm. injection Hrm as _ <-.
  apply io_ret_ok in Hrun as [_ ->]. simpl. split; [|reflexivity].
  rewrite !delete_insert_eq. by apply delete_id.
Qed.

(** A [dict_to_pdf] that returns has changed one file, the destination:
    no temporary image is left. *)
Lemma dict_to_pdf_success_removes_temp_file `{L : Libs}
  data plot_data filename w v w' :
  dict_to_pdf data plot_data (Some filename) w = (Ok v, w') ->
  files w !! tmp_name (files w) = None ->
  exists pages, files w' = <[filename := PdfFile pages]> (files w).
Proof.
  unfold dict_to_pdf. intros H Hfresh.
  apply io_bind_ok in H as (json_str & ? & [_ ->]%lift_ok & H).
  destruct (draw_lines _ _ _) as [c y].
  apply io_bind_ok in H as (c' & w2 & Hplot & H).
  assert (Hfiles : files w2 = files w).
  { destruct (truthy plot_data).
    - by apply add_plot_page_ok in Hplot as [? ?].
    - by apply io_ret_ok in Hplot as [_ ->]. }
  apply io_bind_ok in H as (? & ? & [_ ->]%call_ok & H).
  apply io_bind_ok in H as (? & w4 & Hw & H).
  apply io_bind_ok in H as (? & w5 & Hp & H).
  apply io_ret_ok in H as [_ ->].
  injection Hw as _ <-. injection Hp as _ <-. simpl.
  rewrite Hfiles. eauto.
Qed.

(** ** convert_types *)

(** Induction over values, through the lists and dictionaries inside. *)
Lemma value_nested_ind (P : value -> Prop) :
  P VNone -> (forall b, P (VBool b)) -> (forall n, P (VInt n)) ->
  (forall x, P (VFloat x)) -> (forall s, P (VStr s)) ->
  (forall v, P v -> P (VScalar v)) ->
  (forall l, Forall P l -> P (VList l)) ->
  (forall l, Forall P l -> P (VTuple l)) ->
  (forall d, Forall (fun kv => P kv.2) d -> P (VDict d)) ->
  forall v, P v.
Proof.
  intros HNone HBool HInt HFloat HStr HScalar HList HTuple HDict.
  fix IH 1. intros [ | b | n | x | s | v | l | l | d].
  - exact HNone.
  - apply HBool.
  - apply HInt.
  - apply HFloat.
  - apply HStr.
  - apply HScalar, IH.
  - apply HList. induction l as [|a l IHl]; constructor; [apply IH | exact IHl].
  - apply HTuple. induction l as [|a l IHl]; constructor; [apply IH | exact IHl].
  - apply HDict. induction d as [|[k a] d IHd]; constructor;
      [apply IH | exact IHd].
Qed.

(** A value with neither library scalars nor tuples is returned as it is:
    [convert_types] only rewrites what [json] could not take. *)
Theorem convert_types_plain_id (v : value) :
  plain v = true -> convert_types v = v.
Proof.
  induction v as [ | | | | | v IH | l IH | l IH | d IH] using value_nested_ind;
    simpl; try done.
  - intros Hl. f_equal. induction IH as [|a l Ha _ IHl]; [done|].
    simpl in *. apply andb_true_iff in Hl as [H1 H2].
    by rewrite Ha, IHl.
  - intros Hd. f_equal. induction IH as [|[k a] d Ha _ IHd]; [done|].
    simpl in *. apply andb_true_iff in Hd as [H1 H2].
    by rewrite Ha, IHd.
Qed.

Lemma convert_types_plain_id_witness :
  convert_types (VDict [("F", VFloat 3); ("levels", VList [VStr "A"; VInt 2])])
  = VDict [("F", VFloat 3); ("levels", VList [VStr "A"; VInt 2])].
Proof. apply convert_types_plain_id. reflexivity. Defined.



(** ** Runs that raise *)

Lemma io_bind_raise {A B} (m : io A) (f : A -> io B) w e w2 :
  (m ≫= f) w = (Raise e, w2) ->
  m w = (Raise e, w2) \/
  exists a w1, m w = (Ok a, w1) /\ f a w1 = (Raise e, w2).
Proof.
  unfold mbind, io_bind. destruct (m w) as [[a|e'] w1]; [eauto|].
  intros [= -> ->]. by left.
Qed.

Lemma lift_raise {A} (r : result A) w e w1 :
  lift r w = (Raise e, w1) -> r = Raise e /\ w1 = w.
Proof. unfold lift. intros [= -> ->]. done. Qed.

Lemma call_raise `{L : Libs} c w e w1 :
  call c w = (Raise e, w1) -> lib_raises c = Some e /\ w1 = w.
Proof.
  unfold call, lift. destruct (lib_raises c); [|discriminate].
  intros [= -> ->]. done.
Qed.

Lemma same_files_but_refl path fs : same_files_but path fs fs.
Proof. by intros other _. Qed.

Lemma same_files_but_insert path f fs fs' :
  same_files_but path fs fs' -> same_files_but path fs (<[path := f]> fs').
Proof.
  intros H other Hne. rewrite lookup_insert_ne by done. by apply H.
Qed.

Lemma same_files_but_delete path fs fs' :
  same_files_but path fs fs' -> same_files_but path fs (delete path fs').
Proof.
  intros H other Hne. rewrite lookup_delete_ne by done. by apply H.
Qed.

(** Whatever the plot page does, and however it ends, the output is left
    alone and no file but the temporary image is touched. *)
Lemma io_bind_cases {A B} (m : io A) (f : A -> io B) w r w2 :
  (m ≫= f) w = (r, w2) ->
  (exists e, m w = (Raise e, w2) /\ r = Raise e) \/
  exists a w1, m w = (Ok a, w1) /\ f a w1 = (r, w2).
Proof.
  unfold mbind, io_bind. destruct (m w) as [[a|e] w1]; [eauto|].
  intros [= <- <-]. eauto.
Qed.

(** One step of a run whose outcome is open: either the step raised, and
    the world at hand is the outcome, or the run goes on. *)
Ltac lift_step H :=
  apply io_bind_cases in H
      as [(? & [_ ->]%lift_raise & _) | (? & ? & [_ ->]%lift_ok & H)];
  [assumption|].

Ltac call_step H :=
  apply io_bind_cases in H
      as [(? & [_ ->]%call_raise & _) | (? & ? & [_ ->]%call_ok & H)];
  [assumption|].

(** Whatever the plot page does, and however it ends, the output is left
    alone and no file but the temporary image is touched. *)
Lemma add_plot_page_frame `{L : Libs} c plot_data w r w' :
  add_plot_page c plot_data w = (r, w') ->
  stdout w' = stdout w /\
  same_files_but (tmp_name (files w)) (files w) (files w').
Proof.
  intros Hrun.
  assert (Ha : stdout w = stdout w /\
               same_files_but (tmp_name (files w)) (files w) (files w))
    by (split; [done | apply same_files_but_refl]).
  unfold add_plot_page in Hrun.
  do 4 lift_step Hrun.
  match type of Hrun with
  | (let '(_, _) := ?p in _) _ = _ => destruct p as [x_min x_max]
  end.
  call_step Hrun.
  apply io_bind_cases in Hrun as [(? & [=] & _) | (fs & ? & [= <- <-] & Hrun)].
  apply io_bind_cases in Hrun as [(? & [=] & _) | (? & wb & [= _ <-] & Hrun)].
  set (tmp := tmp_name (files w)) in *.
  set (wb := {| files := <[tmp := EmptyFile]> (files w);
                stdout := stdout w |}) in *.
  assert (Hb : stdout wb = stdout w /\
               same_files_but tmp (files w) (files wb))
    by (split; [done | apply same_files_but_insert, same_files_but_refl]).
  do 2 call_step Hrun. do 2 lift_step Hrun.
  match type of Hrun with
  | (mapM (plot_curve ?sd) ?items ≫= _) _ = _ =>
      pose proof (mapM_plot_curve_world sd items wb) as Hm
  end.
  apply io_bind_cases in Hrun
      as [(? & Hc & _) | (curves & w1 & Hc & Hrun)];
    rewrite Hc in Hm; simpl in Hm; subst; [assumption|].
  call_step Hrun.
  apply io_bind_cases in Hrun as [(? & [=] & _) | (? & wc & [= _ <-] & Hrun)].
  simpl in Hrun.
  assert (Hc' : forall f0 f1,
             same_files_but tmp (files w) (<[tmp := f1]> (<[tmp := f0]> (files w))))
    by (intros; by apply same_files_but_insert, same_files_but_insert,
                     same_files_but_refl).
  apply io_bind_cases in Hrun
      as [(? & [_ ->]%call_raise & _) | (? & ? & [_ ->]%call_ok & Hrun)];
    [split; [done | apply Hc']|].
  unfold read_image, os_unlink, mbind, io_bind in Hrun.
  cbn [files stdout] in Hrun. rewrite lookup_insert_eq in Hrun.
  cbn [files stdout] in Hrun. rewrite lookup_insert_eq in Hrun.
  injection Hrun as _ <-. split; [done|]. cbn [files].
  apply same_files_but_delete, Hc'.
Qed.

(** ** dict_to_pdf: what a failed rendering leaves behind *)

(** When [dict_to_pdf] raises, nothing was printed and no file other than
    the temporary image has changed: in particular no PDF, complete or
    partial, is at the destination unless it was there before (saving is
    the last step that can raise and writes nothing when it does).  When
    no plot was asked for, nothing has changed at all. *)
Theorem dict_to_pdf_failure_frame `{L : Libs}
  (data plot_data : value) (filename : string) (w w' : world) (e : exn) :
  dict_to_pdf data plot_data (Some filename) w = (Raise e, w') ->
  stdout w' = stdout w /\
  same_files_but (tmp_name (files w)) (files w) (files w') /\
  (truthy plot_data = false -> w' = w).
Proof.
  unfold dict_to_pdf. intros Hrun.
  apply io_bind_raise in Hrun
      as [[_ ->]%lift_raise | (json_str & ? & [_ ->]%lift_ok & Hrun)].
  { split; [done|]. split; [apply same_files_but_refl | done]. }
  destruct (draw_lines _ _ _) as [c y].
  assert (Hplot : forall r w2,
             (if truthy plot_data then add_plot_page c plot_data else mret c) w
             = (r, w2) ->
             stdout w2 = stdout w /\
             same_files_but (tmp_name (files w)) (files w) (files w2) /\
             (truthy plot_data = false -> w2 = w)).
  { intros r w2. destruct (truthy plot_data).
    - intros [? ?]%add_plot_page_frame. done.
    - intros [= _ <-]. split; [done|].
      split; [apply same_files_but_refl | done]. }
  apply io_bind_raise in Hrun as [Hrun | (c' & w2 & Hc & Hrun)].
  { by apply Hplot in Hrun. }
  apply Hplot in Hc.
  apply io_bind_raise in Hrun
      as [[_ ->]%call_raise | (? & ? & [_ ->]%call_ok & Hrun)]; [done|].
  apply io_bind_raise in Hrun as [[=] | (? & ? & _ & Hrun)].
  apply io_bind_raise in Hrun as [[=] | (? & ? & _ & Hrun)].
  discriminate Hrun.
Qed.

Lemma dict_to_pdf_failure_frame_witness :
  let run := @dict_to_pdf Scenario.one_way_libs (VDict [])
               PlotScenario.mismatched_plot_data (Some "report.pdf")
               Scenario.empty_world in
  run.1 = Raise (KeyError "A") /\
  files run.2 !! "report.pdf" = None /\ stdout run.2 = [].
Proof.
  cbv zeta. split; [vm_compute; reflexivity|].
  destruct (@dict_to_pdf_failure_frame Scenario.one_way_libs (VDict [])
              PlotScenario.mismatched_plot_data "report.pdf"
              Scenario.empty_world
              (@dict_to_pdf Scenario.one_way_libs (VDict [])
                 PlotScenario.mismatched_plot_data (Some "report.pdf")
                 Scenario.empty_world).2
              (KeyError "A") ltac:(vm_compute; reflexivity))
    as (Hout & Hfiles & _).
  split; [|exact Hout].
  rewrite (Hfiles "report.pdf"); [reflexivity | vm_compute; discriminate].
Defined.

(** A returning [dict_to_pdf]: the value is None, the destination holds a
    PDF, every other file is as before (the temporary name being free when
    the call starts) and one line was printed. *)
Lemma dict_to_pdf_ok `{L : Libs} data plot_data filename w v w' :
  dict_to_pdf data plot_data (Some filename) w = (Ok v, w') ->
  files w !! tmp_name (files w) = None ->
  v = VNone /\
  (exists pages, files w' = <[filename := PdfFile pages]> (files w)) /\
  stdout w' = stdout w ++ ["PDF saved as '" +:+ filename +:+ "'"].
Proof.
  unfold dict_to_pdf. intros H Hfresh.
  apply io_bind_ok in H as (json_str & ? & [_ ->]%lift_ok & H).
  destruct (draw_lines _ _ _) as [c y].
  apply io_bind_ok in H as (c' & w2 & Hplot & H).
  assert (Hw2 : files w2 = files w /\ stdout w2 = stdout w).
  { destruct (truthy plot_data).
    - by apply add_plot_page_ok in Hplot.
    - by apply io_ret_ok in Hplot as [_ ->]. }
  destruct Hw2 as [Hfiles Hout].
  apply io_bind_ok in H as (? & ? & [_ ->]%call_ok & H).
  apply io_bind_ok in H as (? & w4 & Hw & H).
  apply io_bind_ok in H as (? & w5 & Hp & H).
  apply io_ret_ok in H as [-> ->].
  injection Hw as _ <-. injection Hp as _ <-. simpl.
  rewrite Hfiles, Hout. eauto.
Qed.

(** ** anova1way: the one file it writes *)

(** A call of [anova1way] that returns has written the PDF
    "anova1way_results.pdf" (replacing a file of that name), printed one
    line and changed no other file; a call that raises has changed and
    printed nothing. *)
Theorem anova1way_effects `{L : Libs}
  (src : data_source) (group_column data_column : string) (w w' : world) :
  (forall r,
      anova1way src group_column data_column w = (Ok r, w') ->
      (exists pages,
          files w' = <["anova1way_results.pdf" := PdfFile pages]> (files w))
      /\ stdout w' = stdout w ++ ["PDF saved as 'anova1way_results.pdf'"]) /\
  (forall e,
      anova1way src group_column data_column w = (Raise e, w') -> w' = w).
Proof.
  split.
  - intros r Hrun. unfold anova1way in Hrun.
    repeat (apply io_bind_ok in Hrun as (? & ? & [_ ->]%lift_ok & Hrun)).
    apply io_bind_ok in Hrun as (v & w2 & Hpdf & Hrun).
    apply io_ret_ok in Hrun as [_ ->].
    unfold dict_to_pdf in Hpdf.
    apply io_bind_ok in Hpdf as (json_str & ? & [_ ->]%lift_ok & Hpdf).
    destruct (draw_lines _ _ _) as [c y]. cbn [truthy] in Hpdf.
    apply io_bind_ok in Hpdf as (? & ? & [_ ->]%io_ret_ok & Hpdf).
    apply io_bind_ok in Hpdf as (? & ? & [_ ->]%call_ok & Hpdf).
    apply io_bind_ok in Hpdf as (? & w4 & [= _ <-] & Hpdf).
    apply io_bind_ok in Hpdf as (? & w5 & [= _ <-] & Hpdf).
    apply io_ret_ok in Hpdf as [_ ->]. simpl. eauto.
  - intros e Hrun. unfold anova1way in Hrun.
    repeat (apply io_bind_raise in Hrun
                as [[_ ->]%lift_raise | (? & ? & [_ ->]%lift_ok & Hrun)];
            [reflexivity|]).
    apply io_bind_raise in Hrun as [Hrun | (? & ? & _ & [=])].
    unfold dict_to_pdf in Hrun.
    apply io_bind_raise in Hrun
        as [[_ ->]%lift_raise | (? & ? & [_ ->]%lift_ok & Hrun)];
      [reflexivity|].
    destruct (draw_lines _ _ _) as [c y]. cbn [truthy] in Hrun.
    apply io_bind_raise in Hrun as [[=] | (? & ? & [_ ->]%io_ret_ok & Hrun)].
    apply io_bind_raise in Hrun
        as [[_ ->]%call_raise | (? & ? & _ & Hrun)]; [reflexivity|].
    apply io_bind_raise in Hrun as [[=] | (? & ? & _ & Hrun)].
    apply io_bind_raise in Hrun as [[=] | (? & ? & _ & Hrun)].
    discriminate Hrun.
Qed.

Lemma anova1way_effects_witness :
  exists pages,
    files (@anova1way Scenario.one_way_libs (InMemory Scenario.two_groups)
             "group" "y" Scenario.empty_world).2
    = <["anova1way_results.pdf" := PdfFile pages]> ∅.
Proof.
  destruct (@anova1way_effects Scenario.one_way_libs
              (InMemory Scenario.two_groups) "group" "y" Scenario.empty_world
              (@anova1way Scenario.one_way_libs (InMemory Scenario.two_groups)
                 "group" "y" Scenario.empty_world).2) as [Hok _].
  destruct (Hok _ ltac:(vm_compute; reflexivity)) as [[pages Hfiles] _].
  exists pages. exact Hfiles.
Defined.

(** ** get_plot_data and save_handler *)

(** With [render_plot] false the summary is not looked at.  With
    [render_plot] true the call returns exactly when the summary has
    ['grouped']['mean'] and ['grouped']['std_dev']; the plot specification
    then has the two keys "means" and "std_devs" and no "x_range", so the
    plot it leads to is always drawn, over the computed range. *)
Theorem get_plot_data_shape (summary_stats : value) :
  get_plot_data summary_stats false = Ok VNone /\
  (forall plot_data,
      get_plot_data summary_stats true = Ok plot_data <->
      exists means std_devs,
        get_path summary_stats ["grouped"; "mean"] = Ok means /\
        get_path summary_stats ["grouped"; "std_dev"] = Ok std_devs /\
        plot_data = VDict [("means", means); ("std_devs", std_devs)]) /\
  (forall plot_data,
      get_plot_data summary_stats true = Ok plot_data ->
      truthy plot_data = true /\ get_or_none plot_data "x_range" = Ok VNone).
Proof.
  split; [reflexivity|].
  assert (Hiff : forall plot_data,
      get_plot_data summary_stats true = Ok plot_data <->
      exists means std_devs,
        get_path summary_stats ["grouped"; "mean"] = Ok means /\
        get_path summary_stats ["grouped"; "std_dev"] = Ok std_devs /\
        plot_data = VDict [("means", means); ("std_devs", std_devs)]).
  { intros plot_data. unfold get_plot_data. cbn [negb get_path].
    destruct (subscript summary_stats "grouped") as [grouped|e]; simpl.
    - destruct (subscript grouped "mean") as [means|e]; simpl.
      + destruct (subscript grouped "std_dev") as [std_devs|e]; simpl.
        * split; [intros [= <-]; eauto | intros (? & ? & [= <-] & [= <-] & ->)].
          reflexivity.
        * split; [discriminate | intros (? & ? & _ & [=] & _)].
      + split; [discriminate | intros (? & ? & [=] & _)].
    - split; [discriminate | intros (? & ? & [=] & _)]. }
  split; [exact Hiff|].
  intros plot_data (means & std_devs & _ & _ & ->)%Hiff. split; reflexivity.
Qed.

Lemma dict_to_json_raises `{L : Libs} result filename w v w' :
  dict_to_json result filename w <> (Ok v, w').
Proof.
  unfold dict_to_json, mbind, io_bind, lift, call, write_file, json_dump.
  destruct (json_dumps result None); [|discriminate].
  destruct (lib_raises (OpenForWriting filename)); discriminate.
Qed.

(** [save_handler] returns in two cases only: without a destination, with
    the result mapping itself and nothing done; or with a destination that
    ends in ".pdf", with None, the PDF written there, one line printed and
    every other file as before (the temporary name being free).  It never
    returns the JSON text. *)
Theorem save_handler_returns `{L : Libs}
  (result : value) (filename : option string) (render_plot : bool)
  (w w' : world) (v : value) :
  save_handler result filename render_plot w = (Ok v, w') ->
  files w !! tmp_name (files w) = None ->
  (filename = None /\ v = result /\ w' = w) \/
  (exists path pages,
      filename = Some path /\ endswith path ".pdf" = true /\ v = VNone /\
      files w' = <[path := PdfFile pages]> (files w) /\
      stdout w' = stdout w ++ ["PDF saved as '" +:+ path +:+ "'"]).
Proof.
  intros Hrun Hfresh. destruct filename as [path|].
  - right. unfold save_handler in Hrun.
    destruct (endswith path ".pdf") eqn:Hpdf.
    + apply io_bind_ok in Hrun as (? & ? & [_ ->]%lift_ok & Hrun).
      apply io_bind_ok in Hrun as (? & ? & [_ ->]%lift_ok & Hrun).
      apply io_bind_ok in Hrun as (? & ? & Hrun & [-> ->]%io_ret_ok).
      apply dict_to_pdf_ok in Hrun as (-> & [pages Hfiles] & Hout); [|done].
      exists path, pages. done.
    + destruct (endswith path ".json").
      * apply io_bind_ok in Hrun as (? & ? & Hrun & _).
        by apply dict_to_json_raises in Hrun.
      * discriminate Hrun.
  - left. by injection Hrun as <- <-.
Qed.

Lemma save_handler_returns_witness :
  exists pages,
    files (@save_handler Scenario.one_way_libs
             (VDict [("summary_statistics", Scenario.two_groups_summary)])
             (Some "report.pdf") true Scenario.empty_world).2
    = <["report.pdf" := PdfFile pages]> ∅.
Proof.
  destruct (@save_handler_returns Scenario.one_way_libs
              (VDict [("summary_statistics", Scenario.two_groups_summary)])
              (Some "report.pdf") true Scenario.empty_world
              (@save_handler Scenario.one_way_libs
                 (VDict [("summary_statistics", Scenario.two_groups_summary)])
                 (Some "report.pdf") true Scenario.empty_world).2
              VNone ltac:(vm_compute; reflexivity) eq_refl)
    as [(Hnone & _) | (path & pages & Hpath & _ & _ & Hfiles & _)].
  - discriminate Hnone.
  - injection Hpath as <-. exists pages. exact Hfiles.
Defined.

(** Rendering to a ".pdf" destination needs the key "summary_statistics"
    in the result, also when no plot is asked for: without it the call
    raises KeyError and nothing is drawn, written or printed. *)
Theorem save_handler_pdf_needs_summary_statistics `{L : Libs}
  (d : list (string * value)) (path : string) (render_plot : bool)
  (w : world) :
  endswith path ".pdf" = true ->
  dict_get d "summary_statistics" = None ->
  save_handler (VDict d) (Some path) render_plot w
  = (Raise (KeyError "summary_statistics"), w).
Proof.
  intros Hpdf Hkey. unfold save_handler. rewrite Hpdf.
  cbn [convert_types subscript]. rewrite dict_get_map_values, Hkey.
  reflexivity.
Qed.

Lemma save_handler_pdf_needs_summary_statistics_witness :
  @save_handler Scenario.one_way_libs (VDict [("F", VFloat 3)])
    (Some "report.pdf") false Scenario.empty_world
  = (Raise (KeyError "summary_statistics"), Scenario.empty_world).
Proof.
  apply (@save_handler_pdf_needs_summary_statistics Scenario.one_way_libs);
    reflexivity.
Defined.

(** ** dict_to_pdf: the pages of text *)

Lemma page_texts_app p q : page_texts (p ++ q) = page_texts p ++ page_texts q.
Proof. unfold page_texts. by rewrite flat_map_app. Qed.

Lemma page_positions_app p q :
  page_positions (p ++ q) = page_positions p ++ page_positions q.
Proof. unfold page_positions. by rewrite flat_map_app. Qed.

Lemma all_pages_texts_snoc pages p op :
  concat (map page_texts (pages ++ [p ++ [op]]))
  = concat (map page_texts (pages ++ [p])) ++ page_texts [op].
Proof.
  rewrite !map_app, !concat_app. cbn [map concat].
  rewrite !app_nil_r, page_texts_app. apply List.app_assoc.
Qed.

(** The layout loop, started with [k] lines on the page in progress and the
    pen [k] line heights below the top margin. *)
Lemma draw_lines_layout lines : forall c y (k : nat) c' y',
  draw_lines c y lines = (c', y') ->
  length (page_texts (c_page c)) = k ->
  (y == 756 - (54 # 5) * inject_Z (Z.of_nat k))%Q ->
  c_page c <> [] ->
  Forall text_page_ok (all_pages c) ->
  Forall text_page_ok (all_pages c') /\
  concat (map page_texts (all_pages c'))
  = concat (map page_texts (all_pages c)) ++ lines /\
  c_page c' <> [].
Proof.
  induction lines as [|line rest IH]; intros c y k c' y' Hrun Hk Hy Hne Hok.
  - injection Hrun as <- <-. by rewrite app_nil_r.
  - cbn [draw_lines] in Hrun.
    destruct (negb (Qle_bool pdf_margin y)) eqn:Hlow.
    + (* below the bottom margin: a new page *)
      eapply (IH _ _ 1%nat) in Hrun as (Hok' & Htexts & Hne').
      * split; [exact Hok'|]. split; [|exact Hne'].
        rewrite Htexts. unfold all_pages, draw, showPage. cbn [c_pages c_page].
        rewrite (all_pages_texts_snoc _ [SetFont "Courier" 9]).
        rewrite !map_app, !concat_app. simpl. rewrite !app_nil_r.
        by rewrite <- app_assoc.
      * reflexivity.
      * unfold pdf_line_height, pdf_margin, inch, letter. simpl.
        change (inject_Z (Z.of_nat 1)) with 1%Q. lra.
      * unfold draw. simpl. by destruct (c_page (showPage c)).
      * unfold all_pages, draw, showPage. cbn [c_pages c_page].
        apply Forall_app. split; [exact Hok|].
        constructor; [|constructor]. split; [simpl; lia|].
        simpl. constructor; [|constructor].
        unfold pdf_margin, inch, letter. simpl. lra.
    + (* on the page *)
      apply negb_false_iff, Qle_bool_iff in Hlow.
      unfold pdf_margin, inch in Hlow.
      assert (Hk66 : (k <= 66)%nat).
      { destruct (le_lt_dec k 66) as [?|Hgt]; [done|]. exfalso.
        assert (Hq : (inject_Z 67 <= inject_Z (Z.of_nat k))%Q)
          by (rewrite <- Zle_Qle; lia).
        change (inject_Z 67) with 67%Q in Hq. lra. }
      assert (Hk0 : (0 <= inject_Z (Z.of_nat k))%Q).
      { change 0%Q with (inject_Z 0). rewrite <- Zle_Qle. lia. }
      eapply (IH _ _ (S k)) in Hrun as (Hok' & Htexts & Hne').
      * split; [exact Hok'|]. split; [|exact Hne'].
        rewrite Htexts. unfold all_pages, draw. cbn [c_pages c_page].
        rewrite all_pages_texts_snoc. simpl. by rewrite <- app_assoc.
      * unfold draw. cbn [c_page]. rewrite page_texts_app, length_app, Hk.
        simpl. lia.
      * rewrite Nat2Z.inj_succ. unfold Z.succ. rewrite inject_Z_plus.
        unfold pdf_line_height, inch. change (inject_Z 1) with 1%Q. lra.
      * unfold draw. cbn [c_page]. by destruct (c_page c).
      * unfold all_pages, draw in *. cbn [c_pages c_page].
        apply Forall_app in Hok as [Hpages Hlast].
        apply Forall_app. split; [exact Hpages|].
        constructor; [|constructor].
        apply Forall_inv in Hlast. destruct Hlast as [Hlen Hpos]. split.
        -- rewrite page_texts_app, length_app, Hk. simpl. lia.
        -- rewrite page_positions_app. apply Forall_app. split; [exact Hpos|].
           simpl. constructor; [|constructor]. split; lra.
Qed.

(** A successful [dict_to_pdf] without a plot: the PDF at the destination
    carries the lines of [json.dumps(data, indent=2)], all of them and in
    order, at most 67 to a page, none above the top or below the bottom
    margin. *)
Theorem dict_to_pdf_text_pages `{L : Libs}
  (data plot_data : value) (filename : string) (w w' : world) (v : value) :
  truthy plot_data = false ->
  dict_to_pdf data plot_data (Some filename) w = (Ok v, w') ->
  exists json_str pages,
    json_dumps data (Some 2) = Ok json_str /\
    files w' !! filename = Some (PdfFile pages) /\
    concat (map page_texts pages) = split_lines json_str /\
    Forall text_page_ok pages.
Proof.
  intros Hplot Hrun. unfold dict_to_pdf in Hrun. rewrite Hplot in Hrun.
  apply io_bind_ok in Hrun as (json_str & ? & [Hjson ->]%lift_ok & Hrun).
  destruct (draw_lines _ _ _) as [c y] eqn:Hlines.
  apply (draw_lines_layout _ _ _ 0%nat) in Hlines as (Hok & Htexts & Hne).
  - apply io_bind_ok in Hrun as (? & ? & [-> ->]%io_ret_ok & Hrun).
    apply io_bind_ok in Hrun as (? & ? & [_ ->]%call_ok & Hrun).
    apply io_bind_ok in Hrun as (? & w4 & [= _ <-] & Hrun).
    apply io_bind_ok in Hrun as (? & w5 & [= _ <-] & Hrun).
    apply io_ret_ok in Hrun as [_ ->].
    exists json_str, (all_pages c). split; [exact Hjson|]. split.
    + simpl. rewrite lookup_insert_eq. unfold saved_pages, all_pages.
      by destruct (c_page c).
    + split; [exact Htexts | exact Hok].
  - reflexivity.
  - unfold pdf_margin, inch, letter. simpl.
    change (inject_Z (Z.of_nat 0)) with 0%Q. lra.
  - discriminate.
  - unfold all_pages. simpl. constructor; [|constructor].
    split; [simpl; lia | constructor].
Qed.

Lemma dict_to_pdf_text_pages_witness :
  exists pages,
    files (@dict_to_pdf Scenario.one_way_libs (VDict []) VNone
             (Some "report.pdf") Scenario.empty_world).2 !! "report.pdf"
    = Some (PdfFile pages) /\
    concat (map page_texts pages) = ["{"; "}"].
Proof.
  destruct (@dict_to_pdf_text_pages Scenario.one_way_libs (VDict []) VNone
              "report.pdf" Scenario.empty_world
              (@dict_to_pdf Scenario.one_way_libs (VDict []) VNone
                 (Some "report.pdf") Scenario.empty_world).2
              VNone eq_refl ltac:(vm_compute; reflexivity))
    as (json_str & pages & Hjson & Hfile & Htexts & _).
  exists pages. split; [exact Hfile|].
  injection Hjson as <-. exact Htexts.
Defined.

(** ** The computed range and the groups *)

(** Without an explicit range the plot covers, for every mean m among the
    means and every standard deviation s among the standard deviations,
    the whole interval from m - 4 s to m + 4 s: no group's curve is cut
    within four of its standard deviations. *)
Theorem plot_x_range_covers_groups
  (means std_devs : list (string * value)) (ms ss : list number) :
  mapM as_number (dict_values means) = Ok ms ->
  mapM as_number (dict_values std_devs) = Ok ss ->
  ms <> [] -> ss <> [] ->
  exists x_min x_max,
    plot_x_range (VDict means) (VDict std_devs) VNone
    = Ok (value_of_number x_min, value_of_number x_max) /\
    forall m s, In m ms -> In s ss ->
      (number_Q x_min <= number_Q m - 4 * number_Q s)%Q /\
      (number_Q m + 4 * number_Q s <= number_Q x_max)%Q.
Proof.
  intros Hms Hss Hm Hs.
  destruct (py_min_spec ms Hm) as (m_lo & Hmin & _ & Hlo).
  destruct (py_max_spec ms Hm) as (m_hi & Hmax & _ & Hhi).
  destruct (py_max_spec ss Hs) as (s_hi & Hsmax & _ & Hshi).
  exists (num_sub m_lo (num_mul (NInt 4) s_hi)),
         (num_add m_hi (num_mul (NInt 4) s_hi)).
  split.
  - unfold plot_x_range. simpl.
    rewrite Hms, Hss. simpl. rewrite Hmin, Hsmax, Hmax. reflexivity.
  - intros m s Him His.
    specialize (Hlo m Him). specialize (Hhi m Him). specialize (Hshi s His).
    rewrite num_sub_Q, num_add_Q, num_mul_Q.
    change (number_Q (NInt 4)) with 4%Q. split; lra.
Qed.

Lemma plot_x_range_covers_groups_witness :
  exists x_min x_max,
    plot_x_range (VDict [("A", VFloat 0); ("B", VFloat 10)])
                 (VDict [("A", VFloat 1); ("B", VFloat 5)]) VNone
    = Ok (value_of_number x_min, value_of_number x_max) /\
    (number_Q x_min <= 10 - 4 * 5)%Q.
Proof.
  destruct (plot_x_range_covers_groups
              [("A", VFloat 0); ("B", VFloat 10)]
              [("A", VFloat 1); ("B", VFloat 5)]
              [NFloat 0; NFloat 10] [NFloat 1; NFloat 5]
              eq_refl eq_refl ltac:(discriminate) ltac:(discriminate))
    as (x_min & x_max & Hrange & Hcover).
  exists x_min, x_max. split; [exact Hrange|].
  apply (Hcover (NFloat 10) (NFloat 5)); simpl; tauto.
Defined.

(** ** anova2way: absent factors and the shape of the table *)

(** [anova2way] with a factor column that is not in the table does not
    return.  When the model fit, the ANOVA table and the two factor
    summaries go through, the error is the KeyError of the column lookup
    at line 121, for the first factor that is missing. *)
Theorem anova2way_absent_factor_column `{L : Libs}
  (src : data_source) (group_column1 group_column2 data_column : string)
  (data : DataFrame) :
  load_data_from_path src = Ok data ->
  dict_get data group_column1 = None \/ dict_get data group_column2 = None ->
  (forall out,
      anova2way src group_column1 group_column2 data_column <> Ok out) /\
  (forall model t s1 s2,
      ols_fit (data_column +:+ " ~ " +:+ C group_column1 +:+ " + "
               +:+ C group_column2 +:+ " + " +:+ C group_column1 +:+ ":"
               +:+ C group_column2) data = Ok model ->
      anova_lm model 2 = Ok t ->
      calculate_summary_statistics data group_column1 data_column = Ok s1 ->
      calculate_summary_statistics data group_column2 data_column = Ok s2 ->
      anova2way src group_column1 group_column2 data_column
      = Raise (KeyError (match dict_get data group_column1 with
                         | None => group_column1
                         | Some _ => group_column2
                         end))).
Proof.
  intros Hload Hmissing.
  assert (Hadd : add_interaction_column data group_column1 group_column2
                 = Raise (KeyError (match dict_get data group_column1 with
                                    | None => group_column1
                                    | Some _ => group_column2
                                    end))).
  { unfold add_interaction_column, df_getitem.
    destruct (dict_get data group_column1) as [col1|]; [|reflexivity].
    destruct Hmissing as [ [=] | Hm2 ]. rewrite Hm2. reflexivity. }
  split.
  - intros out Hrun. unfold anova2way in Hrun.
    rewrite Hload in Hrun. simpl in Hrun.
    do 4 (apply result_bind_ok in Hrun as (? & _ & Hrun)).
    rewrite Hadd in Hrun. discriminate Hrun.
  - intros model t s1 s2 Hfit Htab Hs1 Hs2. unfold anova2way.
    rewrite Hload. simpl. rewrite Hfit. simpl. rewrite Htab. simpl.
    rewrite Hs1. simpl. rewrite Hs2. simpl. rewrite Hadd. reflexivity.
Qed.

Lemma anova2way_absent_factor_column_witness :
  @anova2way TwoWayScenario.two_way_libs (InMemory Scenario.two_groups)
             "group" "dose" "y"
  <> Ok (VDict [], Scenario.two_groups).
Proof.
  destruct (@anova2way_absent_factor_column TwoWayScenario.two_way_libs
              (InMemory Scenario.two_groups) "group" "dose" "y"
              Scenario.two_groups eq_refl (or_intror eq_refl)) as [Hnever _].
  apply Hnever.
Defined.

Lemma forallb_dict_set {A} (P : string * A -> bool) d k v :
  forallb P d = true -> P (k, v) = true -> forallb P (dict_set d k v) = true.
Proof.
  intros Hd Hv. induction d as [|[k' v'] d IH]; simpl in *.
  - by rewrite Hv.
  - apply andb_true_iff in Hd as [H1 H2].
    destruct (String.eqb k' k); simpl.
    + by rewrite Hv, H2.
    + by rewrite H1, IH.
Qed.

Lemma rectangular_setitem data name col :
  rectangular data = true -> data <> [] ->
  Z.of_nat (length col) = df_len data ->
  rectangular (df_setitem data name col) = true /\
  df_len (df_setitem data name col) = df_len data.
Proof.
  intros Hrect Hne Hlen.
  assert (Hsame : df_len (df_setitem data name col) = df_len data).
  { destruct data as [|[k c] d]; [done|]. unfold df_setitem. simpl.
    destruct (String.eqb k name); simpl; [exact Hlen | reflexivity]. }
  split; [|exact Hsame].
  unfold rectangular. rewrite Hsame. unfold df_setitem.
  apply forallb_dict_set; [exact Hrect|]. simpl. by apply Z.eqb_eq.
Qed.

(** The table invariant survives the call: from a table whose columns all
    have the same length, a returning [anova2way] leaves a table whose
    columns all have that same length, the derived column included
    (whether it was appended or written over a column). *)
Theorem anova2way_keeps_table_rectangular `{L : Libs}
  (src : data_source) (group_column1 group_column2 data_column : string)
  (data data' : DataFrame) (r : value) :
  load_data_from_path src = Ok data ->
  rectangular data = true ->
  anova2way src group_column1 group_column2 data_column = Ok (r, data') ->
  rectangular data' = true /\ df_len data' = df_len data.
Proof.
  intros Hload Hrect Hrun. unfold anova2way in Hrun.
  rewrite Hload in Hrun. simpl in Hrun.
  do 4 (apply result_bind_ok in Hrun as (? & _ & Hrun)).
  apply result_bind_ok in Hrun as (data2 & Hadd & Hrun).
  repeat (apply result_bind_ok in Hrun as (? & _ & Hrun)).
  injection Hrun as _ <-.
  unfold add_interaction_column in Hadd.
  apply result_bind_ok in Hadd as (col1 & H1 & Hadd).
  apply result_bind_ok in Hadd as (col2 & H2 & Hadd).
  injection Hadd as <-.
  pose proof (rectangular_column _ _ _ Hrect H1) as Hl1.
  pose proof (rectangular_column _ _ _ Hrect H2) as Hl2.
  apply rectangular_setitem; [exact Hrect | |].
  - intros ->. discriminate H1.
  - rewrite length_zip_with, length_map. lia.
Qed.

Lemma anova2way_keeps_table_rectangular_witness :
  exists r data',
    @anova2way TwoWayScenario.two_way_libs
               (InMemory TwoWayScenario.crossed_with_diet_dose)
               "diet" "dose" "y" = Ok (r, data') /\
    rectangular data' = true /\ df_len data' = 4.
Proof.
  eexists _, _. split; [vm_compute; reflexivity|].
  eapply (@anova2way_keeps_table_rectangular TwoWayScenario.two_way_libs
            (InMemory TwoWayScenario.crossed_with_diet_dose)
            "diet" "dose" "y" TwoWayScenario.crossed_with_diet_dose);
    [reflexivity | reflexivity | vm_compute; reflexivity].
Defined.

(** ** anova1way: the rounding of p *)





(** ** anova2way: what is stored in the result *)

Lemma append_inj_l (a b c : string) : a +:+ b = a +:+ c -> b = c.
Proof.
  induction a as [|x a IH]; [done|].
  change (String x (a +:+ b) = String x (a +:+ c) -> b = c).
  intros [= H]. by apply IH.
Qed.

Lemma summary_key_ne (a b : string) :
  a <> b -> "summary_stats_" +:+ a <> "summary_stats_" +:+ b.
Proof. intros Hne Heq. by apply append_inj_l in Heq. Qed.

(** What a returning [anova2way] stores: the factor summaries are computed
    on the loaded table, the interaction summary, and the variance test
    over both factors, on the table with the derived column; each is
    stored as returned.  "summary_stats_interaction" always holds the
    interaction summary, so a factor that is itself called "interaction"
    does not keep a summary of its own. *)
Theorem anova2way_result_contents `{L : Libs}
  (src : data_source) (group_column1 group_column2 data_column : string)
  (r : value) (data' : DataFrame) :
  anova2way src group_column1 group_column2 data_column = Ok (r, data') ->
  exists data model,
    load_data_from_path src = Ok data /\
    ols_fit (data_column +:+ " ~ " +:+ C group_column1 +:+ " + "
             +:+ C group_column2 +:+ " + " +:+ C group_column1 +:+ ":"
             +:+ C group_column2) data = Ok model /\
    add_interaction_column data group_column1 group_column2 = Ok data' /\
    get_path r ["summary_stats_interaction"]
    = calculate_summary_statistics
        data' (interaction_column_name group_column1 group_column2)
        data_column /\
    get_path r ["normality_test"] = test_normality_assumption model /\
    get_path r ["homogeneity_of_variance_test"]
    = test_variance_homogeneity_assumption
        data' (Columns [group_column1; group_column2]) data_column /\
    (group_column1 <> "interaction" ->
     get_path r ["summary_stats_" +:+ group_column1]
     = calculate_summary_statistics data group_column1 data_column) /\
    (group_column2 <> "interaction" ->
     get_path r ["summary_stats_" +:+ group_column2]
     = calculate_summary_statistics data group_column2 data_column).
Proof.
  intros Hrun. unfold anova2way in Hrun.
  apply result_bind_ok in Hrun as (data & Hload & Hrun).
  apply result_bind_ok in Hrun as (model & Hfit & Hrun).
  apply result_bind_ok in Hrun as (t & Htab & Hrun).
  apply result_bind_ok in Hrun as (s1 & Hs1 & Hrun).
  apply result_bind_ok in Hrun as (s2 & Hs2 & Hrun).
  apply result_bind_ok in Hrun as (data2 & Hadd & Hrun).
  apply result_bind_ok in Hrun as (si & Hsi & Hrun).
  repeat (apply result_bind_ok in Hrun as (? & ? & Hrun)).
  injection Hrun as <- <-.
  exists data, model.
  split; [exact Hload|]. split; [exact Hfit|]. split; [exact Hadd|].
  match goal with
  | Hn : test_normality_assumption _ = Ok _,
    Hv : test_variance_homogeneity_assumption _ _ _ = Ok _ |- _ =>
      rewrite Hsi, Hn, Hv, Hs1, Hs2
  end.
  split; [trace_back|]. split; [trace_back|]. split; [trace_back|].
  split.
  - intros Hi1.
    pose proof (summary_key_ne _ _ (not_eq_sym Hi1)) as Hk1.
    change ("summary_stats_" +:+ "interaction")
      with "summary_stats_interaction" in Hk1.
    destruct (String.eqb_spec group_column1 group_column2) as [<-|Hne].
    + rewrite Hs1 in Hs2. injection Hs2 as <-. trace_back.
    + pose proof (summary_key_ne _ _ (not_eq_sym Hne)) as Hk12. trace_back.
  - intros Hi2.
    pose proof (summary_key_ne _ _ (not_eq_sym Hi2)) as Hk2.
    change ("summary_stats_" +:+ "interaction")
      with "summary_stats_interaction" in Hk2.
    trace_back.
Qed.

Lemma anova2way_result_contents_witness :
  exists r data',
    @anova2way TwoWayScenario.two_way_libs (InMemory TwoWayScenario.crossed)
               "diet" "dose" "y" = Ok (r, data') /\
    get_path r ["summary_stats_interaction"] = Ok (VDict []).
Proof.
  eexists _, _. split; [vm_compute; reflexivity|].
  destruct (@anova2way_result_contents TwoWayScenario.two_way_libs
              (InMemory TwoWayScenario.crossed) "diet" "dose" "y" _ _
              ltac:(vm_compute; reflexivity))
    as (data & model & _ & _ & _ & Hint & _).
  rewrite Hint. reflexivity.
Defined.
